(** * A prediction service: request validation and the prediction ledger

    Shallow embedding of [app.py]: the six validation functions, the
    [/predict], [/update] and [/list-db-contents] handlers, and the
    [Prediction] table they write to.

    Python values are the ones [request.get_json()] can produce.  A handler
    either returns a response or raises: exceptions are explicit in the
    result type [res].  The table is passed in and out of the handlers. *)

From Stdlib Require Import ZArith PrimFloat Ascii.
From stdpp Require Import gmap strings list fin_maps.

Set Warnings "-register-all".

Open Scope Z_scope.

(** ** Python values *)

(** What [json.loads] builds: [None], [bool], [int], [float], [str], [list]
    and [dict] with string keys. *)
Inductive pyval : Type :=
  | PyNone
  | PyBool (b : bool)
  | PyInt (z : Z)
  | PyFloat (f : float)
  | PyStr (s : string)
  | PyList (l : list pyval)
  | PyDict (d : gmap string pyval).

(** ** Exceptions *)

Inductive pyexc : Type :=
  | TypeError
  | KeyError (key : string)
  | AttributeError
  | IntegrityError
  | DoesNotExist
  | OtherError.

Inductive res (A : Type) : Type :=
  | Ok (a : A)
  | Raise (e : pyexc).

Arguments Ok {A} a.
Arguments Raise {A} e.

Definition bind {A B : Type} (m : res A) (k : A -> res B) : res B :=
  match m with
  | Ok a => k a
  | Raise e => Raise e
  end.

Notation "x <- m ;; k" := (bind m (fun x => k))
  (at level 100, m at next level, right associativity).

(** [try: body except exc: handler] *)
Definition try_except {A : Type} (body : res A) (catches : pyexc -> bool)
    (handler : res A) : res A :=
  match body with
  | Ok a => Ok a
  | Raise e => if catches e then handler else Raise e
  end.

(** ** Operations on Python values *)

(** [isinstance(v, int)]: [bool] is a subclass of [int]; the integer a value
    of either type stands for. *)
Definition int_value (v : pyval) : option Z :=
  match v with
  | PyBool b => Some (if b then 1 else 0)
  | PyInt z => Some z
  | _ => None
  end.

Definition is_none (v : pyval) : bool :=
  match v with
  | PyNone => true
  | _ => false
  end.

(** [v == s] for a string [s]. *)
Definition py_eq_str (v : pyval) (s : string) : bool :=
  match v with
  | PyStr t => String.eqb t s
  | _ => false
  end.

(** [s in t] on two strings: [s] occurs in [t]. *)
Fixpoint is_infix (s t : string) : bool :=
  String.prefix s t ||
  match t with
  | EmptyString => false
  | String _ t' => is_infix s t'
  end.

(** [key in container] for a string [key]: a key of a dict, an element of a
    list, a substring of a string; other values are not iterable. *)
Definition py_in (key : string) (container : pyval) : res bool :=
  match container with
  | PyDict d => Ok (bool_decide (is_Some (d !! key)))
  | PyList l => Ok (existsb (fun v => py_eq_str v key) l)
  | PyStr t => Ok (is_infix key t)
  | _ => Raise TypeError
  end.

(** [container[key]] for a string [key]. *)
Definition py_getitem (container : pyval) (key : string) : res pyval :=
  match container with
  | PyDict d =>
      match d !! key with
      | Some v => Ok v
      | None => Raise (KeyError key)
      end
  | _ => Raise TypeError
  end.

(** [observation.get(key)]: only a dict has the method. *)
Definition py_get (container : pyval) (key : string) : res pyval :=
  match container with
  | PyDict d => Ok (default PyNone (d !! key))
  | _ => Raise AttributeError
  end.

(** [set(observation.keys())] *)
Definition py_keys (container : pyval) : res (gset string) :=
  match container with
  | PyDict d => Ok (dom d)
  | _ => Raise AttributeError
  end.

(** [value in valid_categories] for a list of strings. *)
Definition py_in_strs (value : pyval) (l : list string) : bool :=
  existsb (py_eq_str value) l.

(** ** Error messages *)

(** An argument of [str.format]: a value, or a set of column names. *)
Inductive fmt_arg : Type :=
  | ArgVal (v : pyval)
  | ArgSet (s : gset string).

(** A message is a literal, or a template with the arguments [.format] is
    called with.  The arguments are kept as they are; their rendering by
    [str()] is Python's. *)
Inductive message : Type :=
  | Plain (text : string)
  | Format (template : string) (args : list fmt_arg).

Definition no_error : message := Plain EmptyString.

Definition template_of (m : message) : string :=
  match m with
  | Plain t => t
  | Format t _ => t
  end.

Definition args_of (m : message) : list fmt_arg :=
  match m with
  | Plain _ => []
  | Format _ a => a
  end.

Definition check_result : Type := res (bool * message).

(** ** Input validation functions *)

Definition check_request (request : pyval) : check_result :=
  has_id <- py_in "observation_id" request ;;
  if negb has_id then
    Ok (false, Format "Field `observation_id` missing from request: {}"
                      [ArgVal request])
  else
    has_data <- py_in "data" request ;;
    if negb has_data then
      Ok (false, Format "Field `data` missing from request: {}"
                        [ArgVal request])
    else Ok (true, no_error).

Definition valid_columns : gset string :=
  {[ "age"; "sex"; "race"; "workclass"; "education"; "marital-status";
     "capital-gain"; "capital-loss"; "hours-per-week" ]}.

Definition check_valid_column (observation : pyval) : check_result :=
  keys <- py_keys observation ;;
  if (0 <? size (valid_columns ∖ keys))%nat then
    Ok (false, Format "Missing columns: {}" [ArgSet (valid_columns ∖ keys)])
  else if (0 <? size (keys ∖ valid_columns))%nat then
    Ok (false, Format "Unrecognized columns provided: {}"
                      [ArgSet (keys ∖ valid_columns)])
  else if negb (size keys =? 9)%nat then
    Ok (false, Format "Number of columns provided is not correct: {}"
                      [ArgSet (keys ∖ valid_columns)])
  else Ok (true, no_error).

(** The dict literal of [check_categorical_values], in its iteration order. *)
Definition valid_category_map : list (string * list string) :=
  [ ("sex", ["Male"; "Female"]);
    ("race", ["White"; "Black"; "Asian-Pac-Islander"; "Amer-Indian-Eskimo";
              "Other"]);
    ("workclass", ["State-gov"; "Self-emp-not-inc"; "Private"; "Federal-gov";
                   "Local-gov"; "?"; "Self-emp-inc"; "Without-pay";
                   "Never-worked"]);
    ("education", ["Bachelors"; "HS-grad"; "11th"; "Masters"; "9th";
                   "Some-college"; "Assoc-acdm"; "Assoc-voc"; "7th-8th";
                   "Doctorate"; "Prof-school"; "5th-6th"; "10th"; "1st-4th";
                   "Preschool"; "12th"]);
    ("marital-status", ["Never-married"; "Married-civ-spouse"; "Divorced";
                        "Married-spouse-absent"; "Separated";
                        "Married-AF-spouse"; "Widowed"]) ].

(** [",".join(["'{}'".format(v) for v in valid_categories])] *)
Definition quoted (v : string) : string := "'" +:+ v +:+ "'".

Definition allowed_values (valid_categories : list string) : string :=
  String.concat "," (map quoted valid_categories).

Definition invalid_category (key : string) (value : pyval)
    (valid_categories : list string) : message :=
  Format "Invalid value provided for {}: {}. Allowed values are: {}"
         [ArgVal (PyStr key); ArgVal value;
          ArgVal (PyStr (allowed_values valid_categories))].

(** The loop over [valid_category_map.items()]. *)
Fixpoint check_categories (items : list (string * list string))
    (observation : pyval) : check_result :=
  match items with
  | [] => Ok (true, no_error)
  | (key, valid_categories) :: rest =>
      present <- py_in key observation ;;
      if present then
        value <- py_getitem observation key ;;
        if negb (py_in_strs value valid_categories) then
          Ok (false, invalid_category key value valid_categories)
        else check_categories rest observation
      else Ok (false, Plain "Categorical field {} missing")
  end.

Definition check_categorical_values (observation : pyval) : check_result :=
  check_categories valid_category_map observation.

(** NumPy's [isnan] and [isinf] on a Python scalar. *)
Class Numpy : Type := {
  np_isnan : pyval -> res bool;
  np_isinf : pyval -> res bool
}.

(** On a Python [int] or [bool] that fits a 64-bit signed integer both
    return [False]. *)
Class NumpyLaws (N : Numpy) : Prop := {
  np_isnan_int64 : forall v z,
    int_value v = Some z -> - 2 ^ 63 <= z < 2 ^ 63 -> np_isnan v = Ok false;
  np_isinf_int64 : forall v z,
    int_value v = Some z -> - 2 ^ 63 <= z < 2 ^ 63 -> np_isinf v = Ok false
}.

Definition check_age `{Numpy} (observation : pyval) : check_result :=
  age <- py_get observation "age" ;;
  if is_none age then Ok (false, Plain "Field `age` missing")
  else
    match int_value age with
    | None => Ok (false, Plain "Field `age` is not an integer")
    | Some n =>
        nan <- np_isnan age ;;
        nan_or_inf <- (if nan then Ok true else np_isinf age) ;;
        if nan_or_inf then Ok (false, Plain "Field `age` is not an integer")
        else if (n <? 10) || (n >? 100) then
          Ok (false, Format
                "Field `age` is not between 10 and 100. `age` is {}"
                [ArgVal age])
        else Ok (true, no_error)
    end.

Definition check_capital_gain (observation : pyval) : check_result :=
  capital_gain <- py_get observation "capital-gain" ;;
  if is_none capital_gain then Ok (false, Plain "Field `capital-gain` missing")
  else
    match int_value capital_gain with
    | None => Ok (false, Plain "Field `capital-gain` is not an integer")
    | Some n =>
        if n <? 0 then
          Ok (false, Format
                "Field `capital-gain` is not a positive integer. `capital-gain` is {}"
                [ArgVal capital_gain])
        else Ok (true, no_error)
    end.

Definition check_capital_loss (observation : pyval) : check_result :=
  capital_loss <- py_get observation "capital-loss" ;;
  if is_none capital_loss then Ok (false, Plain "Field `capital-loss` missing")
  else
    match int_value capital_loss with
    | None => Ok (false, Plain "Field `capital-loss` is not an integer")
    | Some n =>
        if n <? 0 then
          Ok (false, Format
                "Field `capital-loss` is not a positive integer.  `capital-loss` is {}"
                [ArgVal capital_loss])
        else Ok (true, no_error)
    end.

Definition check_hours_per_week (observation : pyval) : check_result :=
  hours_per_week <- py_get observation "hours-per-week" ;;
  if is_none hours_per_week then
    Ok (false, Plain "Field `hours-per-week` missing")
  else
    match int_value hours_per_week with
    | None => Ok (false, Plain "Field `hours-per-week` is not an integer")
    | Some n =>
        if (n <? 0) || (n >? 168) then
          Ok (false, Format
                "Field `hours-per-week` is not between 0 and 168. `hours-per-week` is {}"
                [ArgVal hours_per_week])
        else Ok (true, no_error)
    end.

(** ** The [Prediction] table *)

(** A row: [observation_id] is unique and not null, [true_class] may be
    null.  Rows are kept in insertion order; a row's position stands for its
    primary key, which the program never reads. *)
Record Prediction : Type := {
  observation_id : string;
  observation : string;
  proba : float;
  true_class : option Z
}.

(** The column value peewee stores for a Python value ([None] is NULL). *)
Class Fields : Type := {
  TextField_db_value : pyval -> res (option string);
  IntegerField_db_value : pyval -> res (option Z)
}.

(** A string is stored as it is, and so is an integer that fits a 32-bit
    column. *)
Class FieldsLaws (F : Fields) : Prop := {
  text_of_str : forall s, TextField_db_value (PyStr s) = Ok (Some s);
  integer_of_int : forall v z,
    int_value v = Some z -> - 2 ^ 31 <= z < 2 ^ 31 ->
    IntegerField_db_value v = Ok (Some z)
}.

(** [pd.DataFrame([observation], columns=columns).astype(dtypes)] and the
    unpickled pipeline: [predict_proba(obs)[0, 1]] and
    [bool(predict(obs)[0])]. *)
Class Classifier : Type := {
  frame : Type;
  make_frame : pyval -> res frame;
  predict_proba : frame -> res float;
  pipeline_predict : frame -> res bool
}.

Definition new_row (s : string) (pr : float) (body : string) : Prediction :=
  {| observation_id := s; observation := body; proba := pr;
     true_class := None |}.

Definition has_id (s : string) (p : Prediction) : bool :=
  String.eqb (observation_id p) s.

(** [p.save()] on a new instance: an INSERT, refused with [IntegrityError]
    when [observation_id] is NULL or already stored. *)
Definition insert `{Fields} (_id : pyval) (pr : float) (body : string)
    (db : list Prediction) : res (list Prediction) :=
  col <- TextField_db_value _id ;;
  match col with
  | None => Raise IntegrityError
  | Some s =>
      if existsb (has_id s) db then Raise IntegrityError
      else Ok (db ++ [new_row s pr body])
  end.

(** [Prediction.get(Prediction.observation_id == v)]: the first matching row
    and its position. *)
Definition Prediction_get `{Fields} (v : pyval) (db : list Prediction)
    : res (nat * Prediction) :=
  col <- TextField_db_value v ;;
  match col with
  | None => Raise DoesNotExist
  | Some s =>
      match list_find (fun p => observation_id p = s) db with
      | Some ip => Ok ip
      | None => Raise DoesNotExist
      end
  end.

Definition set_true_class (p : Prediction) (c : option Z) : Prediction :=
  {| observation_id := observation_id p; observation := observation p;
     proba := proba p; true_class := c |}.

(** ** Responses *)

(** [model_to_dict(p)], the primary key left out. *)
Record record_dict : Type := {
  d_observation_id : string;
  d_observation : string;
  d_proba : float;
  d_true_class : pyval
}.

Inductive response : Type :=
  | RespError (error : message)
  | RespScore (prediction : bool) (probability : float)
              (error : option message)
  | RespRecord (r : record_dict)
  | RespList (l : list record_dict).

Definition column_to_py (c : option Z) : pyval :=
  match c with
  | None => PyNone
  | Some z => PyInt z
  end.

(** [model_to_dict] of an instance whose [true_class] attribute is [tc]. *)
Definition model_to_dict (p : Prediction) (tc : pyval) : record_dict :=
  {| d_observation_id := observation_id p; d_observation := observation p;
     d_proba := proba p; d_true_class := tc |}.

(** ** The web server *)

(** An HTTP request: the decoded JSON body and the raw body. *)
Record http_request : Type := {
  get_json : pyval;
  data : string
}.

Definition handler_result : Type := res (response * list Prediction).

(** [ok, error = check; if not ok: return jsonify({'error': error})] *)
Definition checked (check : check_result) (db : list Prediction)
    (continue : handler_result) : handler_result :=
  c <- check ;;
  if fst c then continue else Ok (RespError (snd c), db).

Definition is_IntegrityError (e : pyexc) : bool :=
  match e with
  | IntegrityError => true
  | _ => false
  end.

Definition is_DoesNotExist (e : pyexc) : bool :=
  match e with
  | DoesNotExist => true
  | _ => false
  end.

Definition already_exists (_id : pyval) : message :=
  Format "ERROR: Observation ID: '{}' already exists" [ArgVal _id].

Definition predict `{Numpy} `{Classifier} `{Fields}
    (request : http_request) (db : list Prediction) : handler_result :=
  let obs_dict := get_json request in
  checked (check_request obs_dict) db (
  _id <- py_getitem obs_dict "observation_id" ;;
  observation <- py_getitem obs_dict "data" ;;
  checked (check_valid_column observation) db (
  checked (check_categorical_values observation) db (
  checked (check_age observation) db (
  checked (check_capital_gain observation) db (
  checked (check_capital_loss observation) db (
  checked (check_hours_per_week observation) db (
  obs <- make_frame observation ;;
  proba <- predict_proba obs ;;
  prediction <- pipeline_predict obs ;;
  try_except
    (db' <- insert _id proba (data request) db ;;
     Ok (RespScore prediction proba None, db'))
    is_IntegrityError
    (Ok (RespScore prediction proba (Some (already_exists _id)), db))))))))).

Definition dquote : string := String "034"%char EmptyString.

Definition does_not_exist (_id : pyval) : message :=
  Format ("Observation ID: " +:+ dquote +:+ "{}" +:+ dquote
          +:+ " does not exist") [ArgVal _id].

Definition update `{Fields} (obs : pyval) (db : list Prediction)
    : handler_result :=
  try_except
    (_id <- py_getitem obs "observation_id" ;;
     ip <- Prediction_get _id db ;;
     tc <- py_getitem obs "true_class" ;;
     col <- IntegerField_db_value tc ;;
     Ok (RespRecord (model_to_dict ip.2 tc),
         <[ip.1 := set_true_class ip.2 col]> db))
    is_DoesNotExist
    (_id <- py_getitem obs "observation_id" ;;
     Ok (RespError (does_not_exist _id), db)).

Definition list_db_contents (db : list Prediction) : response :=
  RespList (map (fun p => model_to_dict p (column_to_py (true_class p))) db).

(** ** Reference instances

    A NumPy that answers on 64-bit integers, a constant classifier and
    fields that store strings and 32-bit integers: they satisfy the laws
    above and let the handlers be evaluated on concrete requests. *)

Definition int64_numpy : Numpy :=
  let answer v :=
    match int_value v with
    | Some z =>
        if (- 2 ^ 63 <=? z) && (z <? 2 ^ 63) then Ok false
        else Raise TypeError
    | None => Raise TypeError
    end in
  {| np_isnan := answer; np_isinf := answer |}.

Definition constant_classifier (pr : float) (label : bool) : Classifier :=
  {| frame := pyval;
     make_frame := fun observation => Ok observation;
     predict_proba := fun _ => Ok pr;
     pipeline_predict := fun _ => Ok label |}.

Definition strict_fields : Fields :=
  {| TextField_db_value := fun v =>
       match v with
       | PyStr s => Ok (Some s)
       | PyNone => Ok None
       | _ => Raise OtherError
       end;
     IntegerField_db_value := fun v =>
       match v with
       | PyNone => Ok None
       | _ =>
           match int_value v with
           | Some z =>
               if (- 2 ^ 31 <=? z) && (z <? 2 ^ 31) then Ok (Some z)
               else Raise OtherError
           | None => Raise OtherError
           end
       end |}.

Definition demo_classifier : Classifier :=
  constant_classifier 0.75%float true.

(** ** Sample requests *)

(** The observation of the census example. *)
Definition sample_observation : gmap string pyval :=
  <["age" := PyInt 39]> (
  <["sex" := PyStr "Male"]> (
  <["race" := PyStr "White"]> (
  <["workclass" := PyStr "State-gov"]> (
  <["education" := PyStr "Bachelors"]> (
  <["marital-status" := PyStr "Never-married"]> (
  <["capital-gain" := PyInt 2174]> (
  <["capital-loss" := PyInt 0]> (
  <["hours-per-week" := PyInt 40]> ∅)))))))).

Definition envelope (_id : pyval) (observation : pyval) : pyval :=
  PyDict (<["observation_id" := _id]> (<["data" := observation]> ∅)).

Definition sample_request : http_request :=
  {| get_json := envelope (PyStr "a1") (PyDict sample_observation);
     data := "{...a1...}" |}.

(** An observation with the column [age] missing and a column [foo] that
    does not belong. *)
Definition observation_missing_and_extra : gmap string pyval :=
  <["foo" := PyInt 1]> (delete "age" sample_observation).

(** A request whose identifier is the empty string. *)
Definition request_empty_id : pyval :=
  envelope (PyStr EmptyString) (PyDict sample_observation).

(** The sample request as a dict, and an [/update] request for it. *)
Definition sample_envelope : gmap string pyval :=
  <["observation_id" := PyStr "a1"]> (
  <["data" := PyDict sample_observation]> ∅).

Definition sample_update : gmap string pyval :=
  <["observation_id" := PyStr "a1"]> (<["true_class" := PyInt 1]> ∅).

Definition sample_table : list Prediction :=
  [new_row "a0" 0.25%float "{...a0...}"; new_row "a1" 0.75%float "{...a1...}"].

(** ** The table invariant and the handlers' contract *)

(** [observation_id] is unique. *)
Definition unique_ids (db : list Prediction) : Prop :=
  NoDup (observation_id <$> db).

(** The handler returns a response. *)
Definition responds (h : res (response * list Prediction)) : Prop :=
  exists resp db', h = Ok (resp, db').

Definition int32 (z : Z) : Prop := - 2 ^ 31 <= z < 2 ^ 31.

(** ** The validation chain *)

(** A check passes when it returns [True]. *)
Definition passes (c : check_result) : bool :=
  match c with
  | Ok (true, _) => true
  | _ => false
  end.

(** A check of the observation, run on the request that carries it. *)
Definition on_data {A : Type} (check : pyval -> res A) (request : pyval)
    : res A :=
  observation <- py_getitem request "data" ;;
  check observation.

(** The checks in the order the specification lists them: envelope, columns,
    categorical, age, capital-gain, capital-loss, hours-per-week. *)
Definition validation_chain `{Numpy} : list (pyval -> check_result) :=
  [ check_request;
    on_data check_valid_column;
    on_data check_categorical_values;
    on_data check_age;
    on_data check_capital_gain;
    on_data check_capital_loss;
    on_data check_hours_per_week ].

(** The validator as the specification describes it: run the checks in
    order and return the first failure, if any. *)
Fixpoint first_failure (chain : list (pyval -> check_result))
    (request : pyval) : res (option message) :=
  match chain with
  | [] => Ok None
  | check :: rest =>
      c <- check request ;;
      if fst c then first_failure rest request else Ok (Some (snd c))
  end.

(** A request with a bad [race], an [age] below range and too many hours. *)
Definition request_three_defects : http_request :=
  {| get_json :=
       envelope (PyStr "b2")
         (PyDict (<["race" := PyStr "Martian"]> (
                  <["age" := PyInt 5]> (
                  <["hours-per-week" := PyInt 200]> sample_observation))));
     data := "{...b2...}" |}.

(** The scoring step of [predict]: the probability and the decision. *)
Definition score `{Classifier} (observation : pyval) : res (float * bool) :=
  obs <- make_frame observation ;;
  proba <- predict_proba obs ;;
  prediction <- pipeline_predict obs ;;
  Ok (proba, prediction).

(** A request that passes every check of the chain. *)
Definition validated `{Numpy} (request : pyval) : bool :=
  forallb (fun check => passes (check request)) validation_chain.

(** The value of a categorical field is one of its allowed strings. *)
Definition category_ok (d : gmap string pyval)
    (item : string * list string) : Prop :=
  exists s, d !! item.1 = Some (PyStr s) /\ s ∈ item.2.

(** The sample observation with a [race] that is not a string. *)
Definition observation_bad_race : gmap string pyval :=
  <["race" := PyInt 3]> sample_observation.

(** The sample observation with a [capital-gain] that is a string. *)
Definition observation_text_gain : gmap string pyval :=
  <["capital-gain" := PyStr "lots"]> sample_observation.

(** The field a message names, and the values it carries. *)
Definition names_field (m : message) (field : string) : bool :=
  is_infix field (template_of m).

Definition carries_value (m : message) (v : pyval) : Prop :=
  ArgVal v ∈ args_of m.
(** ** The numeric rules *)

(** [lo <= z], and [z <= hi] when there is an upper bound. *)
Definition in_range (lo : Z) (hi : option Z) (z : Z) : Prop :=
  lo <= z /\ from_option (fun h => z <= h) True hi.

(** The field holds a Python [int] (or [bool]) within the range. *)
Definition integer_in (d : gmap string pyval) (field : string)
    (lo : Z) (hi : option Z) : Prop :=
  exists v z, d !! field = Some v /\ int_value v = Some z /\ in_range lo hi z.

Definition int64 (z : Z) : Prop := - 2 ^ 63 <= z < 2 ^ 63.

(** What a numeric check does with the field of an observation [d]:
    - it accepts exactly an integer within the range;
    - every error it returns names the field;
    - an absent or null field, and a value that is not an integer, give a
      literal error that carries no value;
    - an integer out of range (and [supported]) gives an error that carries
      that value and nothing else. *)
Definition numeric_rule (check : check_result) (d : gmap string pyval)
    (field : string) (lo : Z) (hi : option Z) (supported : Z -> Prop) : Prop :=
  (check = Ok (true, no_error) <-> integer_in d field lo hi) /\
  (forall e, check = Ok (false, e) -> names_field e field = true) /\
  (forall v, default PyNone (d !! field) = v -> int_value v = None ->
     exists text, check = Ok (false, Plain text)) /\
  (forall v z, d !! field = Some v -> int_value v = Some z -> supported z ->
     ~ in_range lo hi z ->
     exists template, check = Ok (false, Format template [ArgVal v])).

(** ** Sequences of requests *)

(** A call to one of the three routes. *)
Inductive call : Type :=
  | CallPredict (request : http_request)
  | CallUpdate (obs : pyval)
  | CallList.

(** The table after a call; a call that raises has written nothing. *)
Definition table_after `{Numpy} `{Classifier} `{Fields} (c : call)
    (db : list Prediction) : list Prediction :=
  match c with
  | CallPredict request =>
      match predict request db with
      | Ok (_, db') => db'
      | Raise _ => db
      end
  | CallUpdate obs =>
      match update obs db with
      | Ok (_, db') => db'
      | Raise _ => db
      end
  | CallList => db
  end.

Definition serve `{Numpy} `{Classifier} `{Fields} (calls : list call)
    (db : list Prediction) : list Prediction :=
  fold_left (fun t c => table_after c t) calls db.

(** The columns of a row that no route rewrites. *)
Definition same_record (p p' : Prediction) : Prop :=
  observation_id p' = observation_id p /\
  observation p' = observation p /\
  proba p' = proba p.


(** The seven checks, each run on the same value. *)
Definition all_checks `{Numpy} : list (pyval -> check_result) :=
  [ check_request; check_valid_column; check_categorical_values; check_age;
    check_capital_gain; check_capital_loss; check_hours_per_week ].

Lemma int64_numpy_laws : NumpyLaws int64_numpy.
Proof.
  split; intros v z Hv [Hlo Hhi]; simpl; rewrite Hv;
    apply Z.leb_le in Hlo; apply Z.ltb_lt in Hhi; now rewrite Hlo, Hhi.
Qed.

Lemma strict_fields_laws : FieldsLaws strict_fields.
Proof.
  split.
  - reflexivity.
  - intros v z Hv [Hlo Hhi]; simpl.
    apply Z.leb_le in Hlo; apply Z.ltb_lt in Hhi.
    destruct v; simpl in *; try discriminate; injection Hv as <-;
      now rewrite Hlo, Hhi.
Qed.


(** ** The exception monad and the guard of a check *)

Lemma bind_Ok {A B : Type} (m : res A) (k : A -> res B) (b : B) :
  bind m k = Ok b <-> exists a, m = Ok a /\ k a = Ok b.
Proof.
  destruct m as [a|e]; simpl; split.
  - intros Hk. now exists a.
  - now intros (a' & [= <-] & Hk).
  - discriminate.
  - now intros (a' & Ha & _).
Qed.

Lemma checked_fail (c : check_result) (db : list Prediction)
    (k : handler_result) (e : message) :
  c = Ok (false, e) -> checked c db k = Ok (RespError e, db).
Proof. now intros ->. Qed.

Lemma checked_pass (c : check_result) (db : list Prediction)
    (k : handler_result) :
  passes c = true -> checked c db k = k.
Proof. destruct c as [[[] m]|]; simpl; intros Hp; now try discriminate. Qed.

Lemma passes_Ok (c : check_result) :
  passes c = true <-> exists m, c = Ok (true, m).
Proof.
  destruct c as [[[] m]|]; simpl; split; try discriminate; eauto;
    now intros (m' & [=]).
Qed.

(** ** The envelope check *)

Lemma check_request_dict (d : gmap string pyval) :
  check_request (PyDict d) =
    match d !! "observation_id", d !! "data" with
    | None, _ =>
        Ok (false, Format "Field `observation_id` missing from request: {}"
                          [ArgVal (PyDict d)])
    | Some _, None =>
        Ok (false, Format "Field `data` missing from request: {}"
                          [ArgVal (PyDict d)])
    | Some _, Some _ => Ok (true, no_error)
    end.
Proof.
  unfold check_request; simpl.
  destruct (d !! "observation_id") as [i|] eqn:Hi; simpl;
    destruct (d !! "data") as [o|] eqn:Ho; simpl;
    repeat (case_bool_decide; simpl); try reflexivity;
    match goal with
    | Hn : ~ is_Some (Some _) |- _ => destruct Hn; eauto
    | Hs : is_Some None |- _ => now destruct Hs
    end.
Qed.

(** A check never returns [True] with a message other than the empty one,
    and the guard in [predict] looks at the flag alone. *)
Lemma predict_envelope_fail `{Numpy} `{Classifier} `{Fields}
    (request : http_request) (db : list Prediction) (e : message) :
  check_request (get_json request) = Ok (false, e) ->
  predict request db = Ok (RespError e, db).
Proof. intros He. unfold predict. now apply checked_fail. Qed.

(** C7, as the code has it: on a request that is a JSON object the envelope
    check succeeds exactly when both keys [observation_id] and [data] are
    present, whatever their values; a missing key gives an error naming it
    ([observation_id] first), and [predict] then answers with that error
    without running any later check or touching the table. *)
Theorem check_request_envelope `{Numpy} `{Classifier} `{Fields}
    (d : gmap string pyval) (body : string) (db : list Prediction) :
  (check_request (PyDict d) = Ok (true, no_error) <->
     is_Some (d !! "observation_id") /\ is_Some (d !! "data")) /\
  (d !! "observation_id" = None ->
     check_request (PyDict d) =
       Ok (false, Format "Field `observation_id` missing from request: {}"
                         [ArgVal (PyDict d)])) /\
  (is_Some (d !! "observation_id") -> d !! "data" = None ->
     check_request (PyDict d) =
       Ok (false, Format "Field `data` missing from request: {}"
                         [ArgVal (PyDict d)])) /\
  (forall e, check_request (PyDict d) = Ok (false, e) ->
     names_field e "observation_id" || names_field e "data" = true /\
     predict {| get_json := PyDict d; data := body |} db
       = Ok (RespError e, db)).
Proof.
  pose proof (check_request_dict d) as Hc.
  assert (Hfail : forall e, check_request (PyDict d) = Ok (false, e) ->
            predict {| get_json := PyDict d; data := body |} db
              = Ok (RespError e, db))
    by (intros e He; now apply predict_envelope_fail).
  destruct (d !! "observation_id") as [i|] eqn:Hi;
    [destruct (d !! "data") as [o|] eqn:Ho|]; rewrite Hc in *.
  - split; [split; eauto|].
    split; [discriminate|].
    split; [intros _ [=]|].
    intros e [=].
  - split; [split; [discriminate|intros [_ [? [=]]]]|].
    split; [discriminate|].
    split; [reflexivity|].
    intros e He. split; [|now apply Hfail]. now injection He as <-.
  - split; [split; [discriminate|intros [[? [=]] _]]|].
    split; [reflexivity|].
    split; [intros [? [=]]|].
    intros e He. split; [|now apply Hfail]. now injection He as <-.
Qed.

(** C7 as the specification words it fails: the empty identifier passes. *)
Lemma check_request_accepts_empty_id :
  py_getitem request_empty_id "observation_id" = Ok (PyStr EmptyString) /\
  check_request request_empty_id = Ok (true, no_error).
Proof. split; reflexivity. Qed.

(** ** The column-set check *)

Lemma size_pos_false (X : gset string) :
  (0 <? size X)%nat = false <-> X = ∅.
Proof.
  rewrite Nat.ltb_ge. split.
  - intros Hs. apply leibniz_equiv, size_empty_iff. lia.
  - intros ->. now rewrite size_empty.
Qed.

Lemma size_pos_true (X : gset string) :
  (0 <? size X)%nat = true <-> X ≠ ∅.
Proof.
  rewrite <- size_pos_false. destruct (0 <? size X)%nat; split; congruence.
Qed.

Lemma size_valid_columns : size valid_columns = 9%nat.
Proof. vm_compute. reflexivity. Qed.

Lemma same_columns (keys : gset string) :
  valid_columns ∖ keys = ∅ -> keys ∖ valid_columns = ∅ ->
  keys = valid_columns.
Proof.
  intros Hmissing Hextra. apply set_eq. intros x. split; intros Hx.
  - destruct (decide (x ∈ valid_columns)) as [|Hn]; [assumption|].
    assert (Hd : x ∈ keys ∖ valid_columns) by now apply elem_of_difference.
    rewrite Hextra in Hd. now apply not_elem_of_empty in Hd.
  - destruct (decide (x ∈ keys)) as [|Hn]; [assumption|].
    assert (Hd : x ∈ valid_columns ∖ keys) by now apply elem_of_difference.
    rewrite Hmissing in Hd. now apply not_elem_of_empty in Hd.
Qed.

(** The three tests of [check_valid_column] on a dict; the third never
    fires. *)
Lemma check_valid_column_dict (d : gmap string pyval) :
  check_valid_column (PyDict d) =
    if decide (valid_columns ∖ dom d = ∅) then
      if decide (dom d ∖ valid_columns = ∅) then Ok (true, no_error)
      else Ok (false, Format "Unrecognized columns provided: {}"
                             [ArgSet (dom d ∖ valid_columns)])
    else Ok (false, Format "Missing columns: {}"
                           [ArgSet (valid_columns ∖ dom d)]).
Proof.
  unfold check_valid_column; simpl.
  destruct (decide (valid_columns ∖ dom d = ∅)) as [Hm|Hm].
  - rewrite (proj2 (size_pos_false _) Hm).
    destruct (decide (dom d ∖ valid_columns = ∅)) as [Hx|Hx].
    + rewrite (proj2 (size_pos_false _) Hx).
      rewrite (same_columns _ Hm Hx), size_valid_columns. reflexivity.
    + now rewrite (proj2 (size_pos_true _) Hx).
  - now rewrite (proj2 (size_pos_true _) Hm).
Qed.

(** ** [predict] stops at the first failing check *)

Lemma envelope_id (j obs : pyval) :
  passes (check_request j) = true -> py_getitem j "data" = Ok obs ->
  exists _id, py_getitem j "observation_id" = Ok _id.
Proof.
  destruct j; try discriminate. rewrite check_request_dict; simpl.
  destruct (d !! "observation_id"); [eauto|discriminate].
Qed.

Lemma on_data_at {A : Type} (check : pyval -> res A) (j obs : pyval) :
  py_getitem j "data" = Ok obs -> on_data check j = check obs.
Proof. unfold on_data. now intros ->. Qed.

Lemma on_data_Ok {A : Type} (check : pyval -> res A) (j : pyval) (c : A) :
  on_data check j = Ok c -> exists obs, py_getitem j "data" = Ok obs.
Proof.
  unfold on_data. destruct (py_getitem j "data"); [eauto|discriminate].
Qed.

Lemma on_data_passes (check : pyval -> check_result) (j : pyval) :
  passes (on_data check j) = true -> exists obs, py_getitem j "data" = Ok obs.
Proof.
  intros Hp. apply passes_Ok in Hp as [m Hm]. eapply on_data_Ok, Hm.
Qed.

(** Under the guards that passed, [predict] is what remains of it. *)
Ltac enter_predict Henv Hid Hobs :=
  unfold predict; rewrite (checked_pass _ _ _ Henv), Hid, Hobs; simpl bind;
  repeat match goal with
  | Hp : passes (on_data _ _) = true |- _ =>
      rewrite (on_data_at _ _ _ Hobs) in Hp
  end;
  rewrite ?checked_pass by assumption.

(** The error of the first failing check of the chain is the response,
    whatever the checks after it would do. *)
Lemma predict_stops_at `{Numpy} `{Classifier} `{Fields}
    (request : http_request) (db : list Prediction)
    (pre post : list (pyval -> check_result)) (check : pyval -> check_result)
    (e : message) :
  validation_chain = pre ++ check :: post ->
  Forall (fun c => passes (c (get_json request)) = true) pre ->
  check (get_json request) = Ok (false, e) ->
  predict request db = Ok (RespError e, db).
Proof.
  intros Hsplit Hpre Hfail. unfold validation_chain in Hsplit.
  destruct pre as [|c0 pre]; simpl in Hsplit.
  { injection Hsplit as <- _. now apply predict_envelope_fail. }
  injection Hsplit as <- Hsplit.
  apply Forall_cons in Hpre as [Henv Hpre].
  assert (exists obs, py_getitem (get_json request) "data" = Ok obs)
    as [obs Hobs].
  { destruct pre as [|c1 pre]; simpl in Hsplit.
    - injection Hsplit as <- _. eapply on_data_Ok, Hfail.
    - injection Hsplit as <- _. apply Forall_cons in Hpre as [Hp _].
      eapply on_data_passes, Hp. }
  destruct (envelope_id _ _ Henv Hobs) as [_id Hid].
  repeat (destruct pre as [|? pre]; simpl in Hsplit;
          [ injection Hsplit as <- _; rewrite (on_data_at _ _ _ Hobs) in Hfail;
            enter_predict Henv Hid Hobs; now apply checked_fail
          | injection Hsplit as <- Hsplit;
            apply Forall_cons in Hpre as [? Hpre] ]).
  destruct pre; discriminate.
Qed.

Lemma first_failure_split (chain : list (pyval -> check_result)) (j : pyval)
    (e : message) :
  first_failure chain j = Ok (Some e) ->
  exists pre check post,
    chain = pre ++ check :: post /\
    Forall (fun c => passes (c j) = true) pre /\
    check j = Ok (false, e).
Proof.
  induction chain as [|c chain IH]; simpl; [discriminate|].
  destruct (c j) as [[[] m]|] eqn:Hc; simpl; try discriminate.
  - intros Hrest. destruct (IH Hrest) as (pre & check & post & -> & Hpre & Hf).
    exists (c :: pre), check, post. split; [reflexivity|].
    split; [|assumption]. constructor; [now rewrite Hc|assumption].
  - intros [= <-]. exists [], c, chain. now repeat split.
Qed.

(** C2: whichever checks a request violates, [predict] answers with the
    single error of the first check that fails in the order envelope,
    columns, categorical, age, capital-gain, capital-loss, hours-per-week,
    and leaves the table as it is.  [first_failure] does not look at the
    checks after the failing one, so their errors are neither computed nor
    collected. *)
Theorem predict_first_failure `{Numpy} `{Classifier} `{Fields}
    (request : http_request) (db : list Prediction) (e : message) :
  first_failure validation_chain (get_json request) = Ok (Some e) ->
  predict request db = Ok (RespError e, db).
Proof.
  intros Hff.
  destruct (first_failure_split _ _ _ Hff) as (pre & c & post & Hs & Hp & Hf).
  now apply (predict_stops_at request db pre post c e).
Qed.

Lemma predict_first_failure_witness :
  @predict int64_numpy demo_classifier strict_fields request_three_defects []
  = Ok (RespError
          (invalid_category "race" (PyStr "Martian")
             ["White"; "Black"; "Asian-Pac-Islander"; "Amer-Indian-Eskimo";
              "Other"]), []).
Proof.
  apply (@predict_first_failure int64_numpy demo_classifier strict_fields).
  vm_compute. reflexivity.
Defined.

Lemma check_request_envelope_witness :
  check_request (PyDict {["data" := PyDict sample_observation]})
  = Ok (false, Format "Field `observation_id` missing from request: {}"
                 [ArgVal (PyDict {["data" := PyDict sample_observation]})]).
Proof.
  apply (@check_request_envelope int64_numpy demo_classifier strict_fields
           {["data" := PyDict sample_observation]} EmptyString []).
  reflexivity.
Defined.

(** A decidable fact about concrete data, by evaluation. *)
Ltac decide_by_compute :=
  apply (bool_decide_unpack _); vm_compute; exact I.

(** ** The column-set check in [predict] *)

Lemma predict_columns_fail `{Numpy} `{Classifier} `{Fields}
    (r : gmap string pyval) (_id observation : pyval) (body : string)
    (db : list Prediction) (e : message) :
  r !! "observation_id" = Some _id -> r !! "data" = Some observation ->
  check_valid_column observation = Ok (false, e) ->
  predict {| get_json := PyDict r; data := body |} db = Ok (RespError e, db).
Proof.
  intros Hid Hobs He.
  eapply (predict_stops_at _ db [check_request] _ (on_data check_valid_column));
    [reflexivity| |].
  - constructor; [|constructor]. simpl.
    now rewrite check_request_dict, Hid, Hobs.
  - unfold on_data; simpl. now rewrite Hobs.
Qed.

(** C3, as the code has it: on a payload that is a JSON object the check
    succeeds exactly when the key set is the nine required keys; a payload
    with a required key missing gets the missing-columns error, also when it
    has extra keys; a payload with no key missing and some extra key gets
    the unrecognized-columns error; and [predict] answers a wrong key set
    with that error, before any domain check. *)
Theorem check_valid_column_exact `{Numpy} `{Classifier} `{Fields}
    (d : gmap string pyval) :
  (check_valid_column (PyDict d) = Ok (true, no_error) <->
     dom d = valid_columns) /\
  (valid_columns ∖ dom d ≠ ∅ ->
     check_valid_column (PyDict d) =
       Ok (false, Format "Missing columns: {}"
                         [ArgSet (valid_columns ∖ dom d)])) /\
  (valid_columns ∖ dom d = ∅ -> dom d ∖ valid_columns ≠ ∅ ->
     check_valid_column (PyDict d) =
       Ok (false, Format "Unrecognized columns provided: {}"
                         [ArgSet (dom d ∖ valid_columns)])) /\
  (dom d ≠ valid_columns ->
     exists e, check_valid_column (PyDict d) = Ok (false, e) /\
       forall r _id body db,
         r !! "observation_id" = Some _id -> r !! "data" = Some (PyDict d) ->
         predict {| get_json := PyDict r; data := body |} db
           = Ok (RespError e, db)).
Proof.
  pose proof (check_valid_column_dict d) as Hc.
  destruct (decide (valid_columns ∖ dom d = ∅)) as [Hm|Hm];
    [destruct (decide (dom d ∖ valid_columns = ∅)) as [Hx|Hx]|].
  - pose proof (same_columns _ Hm Hx) as Heq.
    split; [split; [now intros _|now intros _]|].
    split; [now intros Hn|]. split; [now intros _ Hn|]. now intros Hn.
  - assert (Hne : dom d ≠ valid_columns).
    { intros Heq. apply Hx. rewrite Heq. apply leibniz_equiv.
      apply difference_diag. }
    split; [split; [rewrite Hc; discriminate|now intros Heq]|].
    split; [now intros Hn|]. split; [now intros _ _|].
    intros _. eexists. split; [exact Hc|].
    intros r _id body db Hid Hobs.
    now apply (predict_columns_fail r _id (PyDict d)).
  - assert (Hne : dom d ≠ valid_columns).
    { intros Heq. apply Hm. rewrite Heq. apply leibniz_equiv.
      apply difference_diag. }
    split; [split; [rewrite Hc; discriminate|now intros Heq]|].
    split; [now intros _|]. split; [now intros Hn|].
    intros _. eexists. split; [exact Hc|].
    intros r _id body db Hid Hobs.
    now apply (predict_columns_fail r _id (PyDict d)).
Qed.

Lemma check_valid_column_exact_witness :
  check_valid_column (PyDict (delete "age" sample_observation))
  = Ok (false, Format "Missing columns: {}"
                 [ArgSet (valid_columns ∖
                            dom (delete "age" sample_observation))]).
Proof.
  apply (@check_valid_column_exact int64_numpy demo_classifier strict_fields
           (delete "age" sample_observation)).
  intros Hempty.
  assert (Hage : "age" ∈ valid_columns ∖ dom (delete "age" sample_observation)).
  { apply elem_of_difference. split.
    - decide_by_compute.
    - decide_by_compute. }
  rewrite Hempty in Hage. now apply not_elem_of_empty in Hage.
Defined.

(** C3 as the specification words it fails: a payload with an extra key and
    a missing key gets the missing-columns error, not the
    unrecognized-columns one. *)
Lemma extra_key_reported_as_missing :
  "foo" ∈ dom observation_missing_and_extra ∖ valid_columns /\
  check_valid_column (PyDict observation_missing_and_extra)
  = Ok (false, Format "Missing columns: {}" [ArgSet {["age"]}]).
Proof.
  split.
  - decide_by_compute.
  - vm_compute. reflexivity.
Qed.

(** ** The categorical-domain check *)

Lemma py_in_strs_spec (v : pyval) (l : list string) :
  py_in_strs v l = true <-> exists s, v = PyStr s /\ s ∈ l.
Proof.
  unfold py_in_strs. rewrite existsb_exists. split.
  - intros (s & Hin & Heq). destruct v; try discriminate.
    apply String.eqb_eq in Heq as ->. exists s.
    split; [reflexivity|now apply list_elem_of_In].
  - intros (s & -> & Hin). exists s.
    split; [now apply list_elem_of_In|apply String.eqb_refl].
Qed.

Lemma category_ok_lookup (d : gmap string pyval) (key : string)
    (allowed : list string) (v : pyval) :
  d !! key = Some v ->
  category_ok d (key, allowed) <-> py_in_strs v allowed = true.
Proof.
  intros Hv. rewrite py_in_strs_spec. unfold category_ok; simpl. split.
  - intros (s & Hs & Hin). rewrite Hv in Hs. injection Hs as ->. eauto.
  - intros (s & -> & Hin). eauto.
Qed.

Lemma check_categories_step (d : gmap string pyval) (key : string)
    (allowed : list string) (rest : list (string * list string)) (v : pyval) :
  d !! key = Some v ->
  check_categories ((key, allowed) :: rest) (PyDict d) =
    if py_in_strs v allowed then check_categories rest (PyDict d)
    else Ok (false, invalid_category key v allowed).
Proof.
  intros Hv; simpl. rewrite bool_decide_eq_true_2 by (rewrite Hv; eauto).
  simpl. rewrite Hv; simpl. now destruct (py_in_strs v allowed).
Qed.

Section Categories.

Variable d : gmap string pyval.

Lemma check_categories_passes (items : list (string * list string)) :
  Forall (fun item => is_Some (d !! item.1)) items ->
  check_categories items (PyDict d) = Ok (true, no_error) <->
  Forall (category_ok d) items.
Proof.
  induction 1 as [|[key allowed] items [v Hv] _ IH]; [now split|].
  rewrite (check_categories_step _ _ _ _ _ Hv), Forall_cons.
  rewrite (category_ok_lookup _ _ _ _ Hv).
  destruct (py_in_strs v allowed); [tauto|].
  split; [discriminate|now intros [? _]].
Qed.

Lemma check_categories_first_violation
    (pre post : list (string * list string)) (key : string)
    (allowed : list string) (v : pyval) :
  Forall (fun item => is_Some (d !! item.1)) pre ->
  Forall (category_ok d) pre ->
  d !! key = Some v -> ~ category_ok d (key, allowed) ->
  check_categories (pre ++ (key, allowed) :: post) (PyDict d)
    = Ok (false, invalid_category key v allowed).
Proof.
  intros Hkeys Hpre Hv Hbad.
  induction Hkeys as [|[k a] pre [w Hw] _ IH]; simpl app.
  - rewrite (check_categories_step _ _ _ _ _ Hv).
    rewrite (category_ok_lookup _ _ _ _ Hv) in Hbad.
    now destruct (py_in_strs v allowed).
  - apply Forall_cons in Hpre as [Hk Hpre].
    rewrite (check_categories_step _ _ _ _ _ Hw).
    apply (category_ok_lookup _ _ _ _ Hw) in Hk. rewrite Hk. now apply IH.
Qed.

End Categories.

Lemma categorical_keys_present (d : gmap string pyval) :
  check_valid_column (PyDict d) = Ok (true, no_error) ->
  Forall (fun item => is_Some (d !! item.1)) valid_category_map.
Proof.
  rewrite check_valid_column_dict. intros Hc.
  assert (Heq : dom d = valid_columns).
  { destruct (decide (valid_columns ∖ dom d = ∅)) as [Hm|];
      [destruct (decide (dom d ∖ valid_columns = ∅)) as [Hx|]|];
      try discriminate. now apply same_columns. }
  repeat constructor; simpl; apply elem_of_dom; rewrite Heq;
    decide_by_compute.
Qed.

(** C6: on an observation that passed the column-set check, the categorical
    check succeeds exactly when each of [sex], [race], [workclass],
    [education], [marital-status] holds one of its allowed strings; the
    first field that does not, in that order, gives the error made of the
    field's name, its value and the list of the allowed values, each of
    which occurs quoted in that list. *)
Theorem check_categorical_values_domain (d : gmap string pyval) :
  check_valid_column (PyDict d) = Ok (true, no_error) ->
  map fst valid_category_map =
    ["sex"; "race"; "workclass"; "education"; "marital-status"] /\
  (check_categorical_values (PyDict d) = Ok (true, no_error) <->
     Forall (category_ok d) valid_category_map) /\
  (forall pre post key allowed v,
     valid_category_map = pre ++ (key, allowed) :: post ->
     Forall (category_ok d) pre ->
     d !! key = Some v -> ~ category_ok d (key, allowed) ->
     check_categorical_values (PyDict d)
       = Ok (false,
             Format "Invalid value provided for {}: {}. Allowed values are: {}"
               [ArgVal (PyStr key); ArgVal v;
                ArgVal (PyStr (allowed_values allowed))]) /\
     forallb (fun s => is_infix (quoted s) (allowed_values allowed)) allowed
       = true).
Proof.
  intros Hcols. pose proof (categorical_keys_present d Hcols) as Hkeys.
  split; [reflexivity|].
  split; [now apply check_categories_passes|].
  intros pre post key allowed v Hsplit Hpre Hv Hbad. split.
  - unfold check_categorical_values. rewrite Hsplit.
    rewrite Hsplit in Hkeys. apply Forall_app in Hkeys as [Hkeys _].
    now apply check_categories_first_violation.
  - assert (Hin : (key, allowed) ∈ valid_category_map)
      by (rewrite Hsplit; apply elem_of_app; right; left).
    assert (Hall : Forall (fun item : string * list string =>
              forallb (fun s => is_infix (quoted s) (allowed_values item.2))
                item.2 = true) valid_category_map)
      by (repeat constructor).
    rewrite Forall_forall in Hall. exact (Hall _ Hin).
Qed.

Lemma check_categorical_values_domain_witness :
  check_categorical_values (PyDict observation_bad_race)
  = Ok (false,
        Format "Invalid value provided for {}: {}. Allowed values are: {}"
          [ArgVal (PyStr "race"); ArgVal (PyInt 3);
           ArgVal (PyStr
             "'White','Black','Asian-Pac-Islander','Amer-Indian-Eskimo','Other'")]).
Proof.
  refine (proj1 (proj2 (proj2
    (check_categorical_values_domain observation_bad_race _))
    [("sex", ["Male"; "Female"])] _ "race"
    ["White"; "Black"; "Asian-Pac-Islander"; "Amer-Indian-Eskimo"; "Other"]
    (PyInt 3) _ _ _ _)).
  - vm_compute. reflexivity.
  - reflexivity.
  - constructor; [|constructor]. exists "Male".
    split; [reflexivity|decide_by_compute].
  - reflexivity.
  - intros (s & Hs & _). vm_compute in Hs. discriminate Hs.
Defined.

(** ** The numeric checks *)

Lemma in_range_dec (lo : Z) (hi : option Z) (z : Z) :
  in_range lo hi z <->
  (z <? lo) || from_option (fun h => z >? h) false hi = false.
Proof.
  unfold in_range. destruct hi as [h|]; simpl;
    rewrite orb_false_iff, Z.ltb_ge, ?Z.gtb_ltb, ?Z.ltb_ge; tauto.
Qed.

(** The shape the three NumPy-free checks share. *)
Lemma numeric_rule_plain (d : gmap string pyval) (field : string)
    (lo : Z) (hi : option Z) (missing not_integer template : string)
    (check : check_result) :
  check =
    (let v := default PyNone (d !! field) in
     if is_none v then Ok (false, Plain missing)
     else match int_value v with
          | None => Ok (false, Plain not_integer)
          | Some n =>
              if (n <? lo) || from_option (fun h => n >? h) false hi
              then Ok (false, Format template [ArgVal v])
              else Ok (true, no_error)
          end) ->
  is_infix field missing = true -> is_infix field not_integer = true ->
  is_infix field template = true ->
  numeric_rule check d field lo hi (fun _ => True).
Proof.
  intros -> Hm Hn Ht. unfold numeric_rule, integer_in.
  destruct (d !! field) as [v|] eqn:Hv; simpl.
  2:{ split; [split; [discriminate|now intros (v & z & [=] & _)]|].
      split; [now intros e [= <-]|].
      split; [intros v <- _; eauto|]. now intros v z [=]. }
  destruct (is_none v) eqn:Hnone.
  { destruct v; try discriminate Hnone.
    split; [split; [discriminate|now intros (v & z & [= <-] & [=] & _)]|].
    split; [now intros e [= <-]|].
    split; [intros v <- _; eauto|]. now intros v z [= <-] [=]. }
  destruct (int_value v) as [n|] eqn:Hint.
  2:{ split; [split; [discriminate|]|].
      { intros (w & z & [= <-] & Hz & _). congruence. }
      split; [now intros e [= <-]|].
      split; [intros w <- _; eauto|]. intros w z [= <-] Hz. congruence. }
  pose proof (in_range_dec lo hi n) as Hr.
  destruct ((n <? lo) || from_option (fun h => n >? h) false hi).
  - split; [split; [discriminate|]|].
    { intros (w & z & [= <-] & Hz & Hin).
      assert (z = n) as -> by congruence. now apply Hr in Hin. }
    split; [now intros e [= <-]|].
    split; [intros w <- Hw; congruence|].
    intros w z [= <-] _ _ _. eauto.
  - split; [split; [intros _; exists v, n; tauto|reflexivity]|].
    split; [discriminate|].
    split; [intros w <- Hw; congruence|].
    intros w z [= <-] Hz _ Hout. assert (z = n) as -> by congruence.
    destruct Hout. now apply Hr.
Qed.

Lemma check_capital_gain_rule (d : gmap string pyval) :
  numeric_rule (check_capital_gain (PyDict d)) d "capital-gain" 0 None
    (fun _ => True).
Proof.
  eapply numeric_rule_plain;
    [ unfold check_capital_gain; simpl;
      destruct (d !! "capital-gain") as [[]|]; simpl; rewrite ?orb_false_r;
      reflexivity
    | reflexivity.. ].
Qed.

Lemma check_capital_loss_rule (d : gmap string pyval) :
  numeric_rule (check_capital_loss (PyDict d)) d "capital-loss" 0 None
    (fun _ => True).
Proof.
  eapply numeric_rule_plain;
    [ unfold check_capital_loss; simpl;
      destruct (d !! "capital-loss") as [[]|]; simpl; rewrite ?orb_false_r;
      reflexivity
    | reflexivity.. ].
Qed.

Lemma check_hours_per_week_rule (d : gmap string pyval) :
  numeric_rule (check_hours_per_week (PyDict d)) d "hours-per-week" 0
    (Some 168) (fun _ => True).
Proof. eapply numeric_rule_plain; reflexivity. Qed.

Lemma check_age_rule `{NumpyLaws} (d : gmap string pyval) :
  numeric_rule (check_age (PyDict d)) d "age" 10 (Some 100) int64.
Proof.
  unfold numeric_rule, integer_in, check_age; simpl.
  destruct (d !! "age") as [v|] eqn:Hv; simpl.
  2:{ split; [split; [discriminate|now intros (v & z & [=] & _)]|].
      split; [now intros e [= <-]|].
      split; [intros v <- _; eauto|]. now intros v z [=]. }
  destruct (is_none v) eqn:Hnone.
  { destruct v; try discriminate Hnone.
    split; [split; [discriminate|now intros (v & z & [= <-] & [=] & _)]|].
    split; [now intros e [= <-]|].
    split; [intros v <- _; eauto|]. now intros v z [= <-] [=]. }
  destruct (int_value v) as [n|] eqn:Hint.
  2:{ split; [split; [discriminate|]|].
      { intros (w & z & [= <-] & Hz & _). congruence. }
      split; [now intros e [= <-]|].
      split; [intros w <- _; eauto|]. intros w z [= <-] Hz. congruence. }
  pose proof (in_range_dec 10 (Some 100) n) as Hr; simpl in Hr.
  assert (Hnp : int64 n -> np_isnan v = Ok false /\ np_isinf v = Ok false).
  { intros H64. split; [eapply np_isnan_int64|eapply np_isinf_int64]; eauto. }
  assert (H64 : in_range 10 (Some 100) n -> int64 n).
  { unfold in_range, int64; simpl. lia. }
  split; [split|].
  - intros Hok. exists v, n. split; [reflexivity|]. split; [exact Hint|].
    apply Hr.
    destruct (np_isnan v) as [[]|]; simpl in Hok; try discriminate;
      destruct (np_isinf v) as [[]|]; simpl in Hok; try discriminate;
      now destruct ((n <? 10) || (n >? 100)).
  - intros (w & z & [= <-] & Hz & Hin). assert (z = n) as -> by congruence.
    destruct (Hnp (H64 Hin)) as [-> ->]; simpl.
    apply Hr in Hin. now rewrite Hin.
  - split; [|split].
    + intros e.
      destruct (np_isnan v) as [[]|]; simpl; try discriminate;
        [now intros [= <-]|].
      destruct (np_isinf v) as [[]|]; simpl; try discriminate;
        [now intros [= <-]|].
      destruct ((n <? 10) || (n >? 100)); [now intros [= <-]|discriminate].
    + intros w <- Hw. congruence.
    + intros w z [= <-] Hz Hsup Hout. assert (z = n) as -> by congruence.
      destruct (Hnp Hsup) as [-> ->]; simpl.
      destruct ((n <? 10) || (n >? 100)); [eauto|].
      destruct Hout. now apply Hr.
Qed.

(** C4, as the code has it: each numeric check accepts exactly a value that
    is present, is a Python [int] ([bool] included; a [float] never is) and
    lies in the field's range: [age] 10 to 100, [capital-gain] and
    [capital-loss] at least 0, [hours-per-week] 0 to 168.  Every error
    names the field; only the out-of-range error carries the invalid value,
    the errors for an absent field and for a value that is not an integer
    are fixed texts. *)
Theorem numeric_checks `{NumpyLaws} (d : gmap string pyval) :
  numeric_rule (check_age (PyDict d)) d "age" 10 (Some 100) int64 /\
  numeric_rule (check_capital_gain (PyDict d)) d "capital-gain" 0 None
    (fun _ => True) /\
  numeric_rule (check_capital_loss (PyDict d)) d "capital-loss" 0 None
    (fun _ => True) /\
  numeric_rule (check_hours_per_week (PyDict d)) d "hours-per-week" 0
    (Some 168) (fun _ => True).
Proof.
  split; [apply check_age_rule|].
  split; [apply check_capital_gain_rule|].
  split; [apply check_capital_loss_rule|apply check_hours_per_week_rule].
Qed.

(** [age = 5] is rejected with the range error carrying [5]. *)
Lemma numeric_checks_witness :
  @check_age int64_numpy (PyDict (<["age" := PyInt 5]> sample_observation))
  = Ok (false, Format "Field `age` is not between 10 and 100. `age` is {}"
                 [ArgVal (PyInt 5)]).
Proof.
  destruct (proj2 (proj2 (proj2 (proj1
    (@numeric_checks int64_numpy int64_numpy_laws
       (<["age" := PyInt 5]> sample_observation))))) (PyInt 5) 5)
    as [template Ht].
  - reflexivity.
  - reflexivity.
  - unfold int64. lia.
  - unfold in_range; simpl. lia.
  - rewrite Ht. vm_compute in Ht. injection Ht as <-. reflexivity.
Defined.

(** C4 as the specification words it fails: the error for a value of the
    wrong type names the field but not the value. *)
Lemma wrong_type_error_omits_value :
  observation_text_gain !! "capital-gain" = Some (PyStr "lots") /\
  check_capital_gain (PyDict observation_text_gain)
  = Ok (false, Plain "Field `capital-gain` is not an integer") /\
  ~ carries_value (Plain "Field `capital-gain` is not an integer")
      (PyStr "lots").
Proof.
  split; [reflexivity|]. split; [reflexivity|].
  unfold carries_value; simpl. apply not_elem_of_nil.
Qed.

(** A float is rejected even when it has no fractional part. *)
Lemma integral_float_rejected `{Numpy} (d : gmap string pyval) (f : float) :
  check_age (PyDict (<["age" := PyFloat f]> d))
  = Ok (false, Plain "Field `age` is not an integer").
Proof. unfold check_age; simpl. now rewrite lookup_insert_eq. Qed.

(** ** Scoring and storing *)

Lemma insert_fresh `{Fields} (_id : pyval) (s : string) (pr : float)
    (body : string) (db : list Prediction) :
  TextField_db_value _id = Ok (Some s) -> existsb (has_id s) db = false ->
  insert _id pr body db = Ok (db ++ [new_row s pr body]).
Proof. unfold insert. intros -> Hnew; simpl. now rewrite Hnew. Qed.

Lemma insert_duplicate `{Fields} (_id : pyval) (s : string) (pr : float)
    (body : string) (db : list Prediction) :
  TextField_db_value _id = Ok (Some s) -> existsb (has_id s) db = true ->
  insert _id pr body db = Raise IntegrityError.
Proof. unfold insert. intros -> Hdup; simpl. now rewrite Hdup. Qed.

Lemma insert_Ok `{Fields} (_id : pyval) (pr : float) (body : string)
    (db db' : list Prediction) :
  insert _id pr body db = Ok db' ->
  exists s, TextField_db_value _id = Ok (Some s) /\
            existsb (has_id s) db = false /\
            db' = db ++ [new_row s pr body].
Proof.
  unfold insert. destruct (TextField_db_value _id) as [[s|]|]; simpl;
    try discriminate.
  destruct (existsb (has_id s) db) eqn:Hdup; [discriminate|].
  intros [= <-]. eauto.
Qed.

(** A validated request reaches the scoring step. *)
Lemma predict_scores `{Numpy} `{Classifier} `{Fields}
    (request : http_request) (db : list Prediction) :
  validated (get_json request) = true ->
  exists _id observation,
    py_getitem (get_json request) "observation_id" = Ok _id /\
    py_getitem (get_json request) "data" = Ok observation /\
    predict request db =
      (sc <- score observation ;;
       try_except
         (db' <- insert _id sc.1 (data request) db ;;
          Ok (RespScore sc.2 sc.1 None, db'))
         is_IntegrityError
         (Ok (RespScore sc.2 sc.1 (Some (already_exists _id)), db))).
Proof.
  unfold validated, validation_chain; simpl. rewrite !andb_true_iff.
  intros (Henv & Hcol & Hcat & Hage & Hgain & Hloss & Hhours & _).
  destruct (on_data_passes _ _ Hcol) as [obs Hobs].
  destruct (envelope_id _ _ Henv Hobs) as [_id Hid].
  exists _id, obs. split; [assumption|]. split; [assumption|].
  enter_predict Henv Hid Hobs. unfold score.
  destruct (make_frame obs) as [f|]; simpl; [|reflexivity].
  destruct (predict_proba f) as [pr|]; simpl; [|reflexivity].
  now destruct (pipeline_predict f) as [label|].
Qed.

(** A request [predict] answers with a score was validated and scored. *)
Lemma predict_score_inv `{Numpy} `{Classifier} `{Fields}
    (request : http_request) (db db' : list Prediction) (label : bool)
    (pr : float) (err : option message) :
  predict request db = Ok (RespScore label pr err, db') ->
  validated (get_json request) = true /\
  on_data score (get_json request) = Ok (pr, label).
Proof.
  unfold predict, checked, validated, validation_chain, on_data; simpl.
  intros Hp.
  repeat match type of Hp with
  | bind ?m _ = Ok _ =>
      let c := fresh "c" in
      destruct m as [c|] eqn:?; simpl in Hp; [|discriminate Hp];
      try (destruct c as [[] ?]; simpl in Hp; [|discriminate Hp])
  end.
  unfold score; simpl.
  repeat match goal with
  | Hc : _ = Ok _ |- _ => rewrite Hc; simpl
  end.
  split; [reflexivity|].
  unfold try_except in Hp.
  destruct (insert _ _ _ _) as [?|e]; simpl in Hp;
    [|destruct (is_IntegrityError e)]; congruence.
Qed.

Lemma has_id_new_row (s : string) (pr : float) (body : string) :
  has_id s (new_row s pr body) = true.
Proof. apply String.eqb_refl. Qed.

Lemma fresh_id_unique (s : string) (db : list Prediction) (row p : Prediction) :
  existsb (has_id s) db = false -> p ∈ db ++ [row] ->
  observation_id p = s -> p = row.
Proof.
  intros Hnew Hin Hid. apply elem_of_app in Hin as [Hin|Hin].
  - assert (existsb (has_id s) db = true); [|congruence].
    apply existsb_exists. exists p. split; [now apply list_elem_of_In|].
    unfold has_id. rewrite Hid. apply String.eqb_refl.
  - now apply list_elem_of_singleton in Hin.
Qed.

(** [predict] writes at most one row, after the rows that are there. *)
Lemma predict_table `{Numpy} `{Classifier} `{Fields}
    (request : http_request) (db db' : list Prediction) (resp : response) :
  predict request db = Ok (resp, db') ->
  db' = db \/
  exists s pr, db' = db ++ [new_row s pr (data request)].
Proof.
  unfold predict, checked. intros Hp.
  repeat match type of Hp with
  | bind ?m _ = Ok _ =>
      let c := fresh "c" in
      destruct m as [c|] eqn:?; simpl in Hp; [|discriminate Hp];
      try (destruct c as [[] ?]; simpl in Hp;
           [|injection Hp as _ <-; now left])
  end.
  unfold try_except in Hp.
  destruct (insert _ _ _ _) as [t|e] eqn:Hins; simpl in Hp.
  - injection Hp as _ <-. apply insert_Ok in Hins as (s & _ & _ & ->). eauto.
  - destruct (is_IntegrityError e); [|discriminate].
    injection Hp as _ <-. now left.
Qed.

(** C9: when [predict] answers with a score and no error, the table has one
    more row, whose [observation] is the raw request body, whose [proba] is
    the probability just computed (the one in the response) and whose
    [true_class] is null.  No later [predict] changes a row that is there,
    so the label stays null until [update] sets it. *)
Theorem predict_creates_record `{Numpy} `{Classifier} `{Fields}
    (request : http_request) (db db' : list Prediction) (label : bool)
    (pr : float) :
  predict request db = Ok (RespScore label pr None, db') ->
  on_data score (get_json request) = Ok (pr, label) /\
  (exists _id s,
     py_getitem (get_json request) "observation_id" = Ok _id /\
     TextField_db_value _id = Ok (Some s) /\
     db' = db ++ [ {| observation_id := s; observation := data request;
                      proba := pr; true_class := None |} ]) /\
  (forall request' resp db'',
     predict request' db' = Ok (resp, db'') ->
     forall i p, db' !! i = Some p -> db'' !! i = Some p).
Proof.
  intros Hp. destruct (predict_score_inv _ _ _ _ _ _ Hp) as [Hval Hscore].
  split; [assumption|]. split.
  - destruct (predict_scores request db Hval) as (_id & obs & Hid & Hobs & Heq).
    rewrite Heq in Hp. rewrite (on_data_at _ _ _ Hobs) in Hscore.
    rewrite Hscore in Hp; simpl in Hp. unfold try_except in Hp.
    destruct (insert _id pr (data request) db) as [t|e] eqn:Hins;
      simpl in Hp.
    + injection Hp as <-. apply insert_Ok in Hins as (s & Hs & _ & ->).
      exists _id, s. now repeat split.
    + destruct (is_IntegrityError e); discriminate.
  - intros request' resp db'' Hp' i p Hi.
    destruct (predict_table _ _ _ _ Hp') as [->|(s & q & ->)];
      [assumption|].
    now apply lookup_app_l_Some.
Qed.

Lemma predict_creates_record_witness :
  exists _id s,
    py_getitem (get_json sample_request) "observation_id" = Ok _id /\
    @TextField_db_value strict_fields _id = Ok (Some s) /\
    [new_row "a1" 0.75%float "{...a1...}"]
    = [] ++ [ {| observation_id := s; observation := data sample_request;
                 proba := 0.75%float; true_class := None |} ].
Proof.
  apply (@predict_creates_record int64_numpy demo_classifier strict_fields
           sample_request [] [new_row "a1" 0.75%float "{...a1...}"] true
           0.75%float).
  vm_compute. reflexivity.
Defined.

(** C1: two valid [/predict] requests with the same string identifier, the
    first on a table that does not hold it.  The first is stored; the second
    is answered with its own freshly computed decision and probability
    together with the duplicate error, and leaves the table as it is: the
    only row with that identifier still has the first request's [proba] and
    [observation]. *)
Theorem predict_duplicate `{Numpy} `{Classifier} `{F : Fields}
    `{!FieldsLaws F} (r1 r2 : http_request) (db : list Prediction)
    (s : string) (pr1 pr2 : float) (label1 label2 : bool) :
  validated (get_json r1) = true -> validated (get_json r2) = true ->
  py_getitem (get_json r1) "observation_id" = Ok (PyStr s) ->
  py_getitem (get_json r2) "observation_id" = Ok (PyStr s) ->
  on_data score (get_json r1) = Ok (pr1, label1) ->
  on_data score (get_json r2) = Ok (pr2, label2) ->
  existsb (has_id s) db = false ->
  let db1 := db ++ [new_row s pr1 (data r1)] in
  predict r1 db = Ok (RespScore label1 pr1 None, db1) /\
  predict r2 db1
    = Ok (RespScore label2 pr2
            (Some (Format "ERROR: Observation ID: '{}' already exists"
                     [ArgVal (PyStr s)])), db1) /\
  (forall p, p ∈ db1 -> observation_id p = s ->
     proba p = pr1 /\ observation p = data r1 /\ true_class p = None).
Proof.
  intros Hv1 Hv2 Hid1 Hid2 Hs1 Hs2 Hnew db1.
  split; [|split].
  - destruct (predict_scores r1 db Hv1) as (i & obs & Hi & Hobs & ->).
    rewrite Hid1 in Hi. injection Hi as <-.
    rewrite (on_data_at _ _ _ Hobs) in Hs1. rewrite Hs1; simpl.
    now rewrite (insert_fresh _ s _ _ _ (text_of_str s) Hnew).
  - destruct (predict_scores r2 db1 Hv2) as (i & obs & Hi & Hobs & ->).
    rewrite Hid2 in Hi. injection Hi as <-.
    rewrite (on_data_at _ _ _ Hobs) in Hs2. rewrite Hs2; simpl.
    rewrite (insert_duplicate _ s _ _ _ (text_of_str s)); [reflexivity|].
    unfold db1. rewrite existsb_app; simpl.
    now rewrite has_id_new_row, orb_true_r.
  - intros p Hin Hp.
    now rewrite (fresh_id_unique s db _ p Hnew Hin Hp).
Qed.

Lemma predict_duplicate_witness :
  let db1 := [new_row "a1" 0.75%float "{...a1...}"] in
  @predict int64_numpy demo_classifier strict_fields sample_request []
    = Ok (RespScore true 0.75%float None, db1) /\
  @predict int64_numpy demo_classifier strict_fields sample_request db1
    = Ok (RespScore true 0.75%float
            (Some (Format "ERROR: Observation ID: '{}' already exists"
                     [ArgVal (PyStr "a1")])), db1) /\
  (forall p, p ∈ db1 -> observation_id p = "a1" ->
     proba p = 0.75%float /\ observation p = "{...a1...}" /\
     true_class p = None).
Proof.
  apply (@predict_duplicate int64_numpy demo_classifier strict_fields
           strict_fields_laws sample_request sample_request [] "a1"
           0.75%float 0.75%float true true);
    vm_compute; reflexivity.
Defined.

(** ** Booleans in numeric fields *)

(** A check reads its own field only. *)
Section OtherField.

Variables (d : gmap string pyval) (k : string) (v : pyval).

Lemma check_age_other `{Numpy} :
  k ≠ "age" -> check_age (PyDict (<[k := v]> d)) = check_age (PyDict d).
Proof. intros Hk. unfold check_age; simpl. now rewrite lookup_insert_ne. Qed.

Lemma check_capital_loss_other :
  k ≠ "capital-loss" ->
  check_capital_loss (PyDict (<[k := v]> d)) = check_capital_loss (PyDict d).
Proof.
  intros Hk. unfold check_capital_loss; simpl. now rewrite lookup_insert_ne.
Qed.

Lemma check_hours_per_week_other :
  k ≠ "hours-per-week" ->
  check_hours_per_week (PyDict (<[k := v]> d))
  = check_hours_per_week (PyDict d).
Proof.
  intros Hk. unfold check_hours_per_week; simpl.
  now rewrite lookup_insert_ne.
Qed.

Lemma check_categorical_values_other :
  k ∉ map fst valid_category_map ->
  check_categorical_values (PyDict (<[k := v]> d))
  = check_categorical_values (PyDict d).
Proof.
  intros Hk. unfold check_categorical_values.
  induction valid_category_map as [|[key allowed] items IH];
    [reflexivity|].
  simpl in Hk. apply not_elem_of_cons in Hk as [Hne Hk].
  simpl. rewrite lookup_insert_ne by assumption. now rewrite (IH Hk).
Qed.

Lemma check_valid_column_overwrite :
  is_Some (d !! k) ->
  check_valid_column (PyDict (<[k := v]> d)) = check_valid_column (PyDict d).
Proof.
  intros Hk. unfold check_valid_column; simpl.
  now rewrite (dom_insert_lookup_L d k v Hk).
Qed.

End OtherField.

Lemma passes_capital_gain_present (d : gmap string pyval) :
  passes (check_capital_gain (PyDict d)) = true ->
  is_Some (d !! "capital-gain").
Proof.
  unfold check_capital_gain; simpl.
  destruct (d !! "capital-gain"); [eauto|discriminate].
Qed.

(** An observation that passes the checks still passes them with
    [capital-gain = True]. *)
Lemma validated_bool_gain `{Numpy} (r d : gmap string pyval) :
  is_Some (r !! "observation_id") -> r !! "data" = Some (PyDict d) ->
  validated (PyDict r) = true ->
  validated
    (PyDict (<["data" := PyDict (<["capital-gain" := PyBool true]> d)]> r))
  = true.
Proof.
  intros [i Hi] Hd. unfold validated, validation_chain; simpl.
  rewrite !andb_true_iff, !check_request_dict.
  rewrite lookup_insert_eq, lookup_insert_ne, Hi by done.
  unfold on_data; simpl. rewrite Hd, lookup_insert_eq; simpl.
  intros (_ & Hcol & Hcat & Hage & Hgain & Hloss & Hhours & _).
  rewrite check_valid_column_overwrite
    by now apply passes_capital_gain_present.
  rewrite check_categorical_values_other
    by (apply (bool_decide_unpack _); vm_compute; exact I).
  rewrite check_age_other, check_capital_loss_other,
    check_hours_per_week_other by done.
  repeat split; try assumption.
  unfold check_capital_gain; simpl. now rewrite lookup_insert_eq.
Qed.

(** C10: a boolean passes the integer type test of every numeric check:
    [capital-gain], [capital-loss] and [hours-per-week] accept it, and [age]
    gets the range error (0 and 1 are below 10), not the type error.  An
    otherwise valid request whose [capital-gain] is [True] is validated,
    scored and stored. *)
Theorem bool_accepted_as_int `{N : Numpy} `{!NumpyLaws N} `{Classifier}
    `{F : Fields} `{!FieldsLaws F} :
  (forall (d : gmap string pyval) (b : bool),
     check_age (PyDict (<["age" := PyBool b]> d))
       = Ok (false,
             Format "Field `age` is not between 10 and 100. `age` is {}"
               [ArgVal (PyBool b)]) /\
     check_capital_gain (PyDict (<["capital-gain" := PyBool b]> d))
       = Ok (true, no_error) /\
     check_capital_loss (PyDict (<["capital-loss" := PyBool b]> d))
       = Ok (true, no_error) /\
     check_hours_per_week (PyDict (<["hours-per-week" := PyBool b]> d))
       = Ok (true, no_error)) /\
  (forall (r d : gmap string pyval) (s body : string) (db : list Prediction)
          (pr : float) (label : bool),
     r !! "observation_id" = Some (PyStr s) ->
     r !! "data" = Some (PyDict d) ->
     validated (PyDict r) = true ->
     score (PyDict (<["capital-gain" := PyBool true]> d)) = Ok (pr, label) ->
     existsb (has_id s) db = false ->
     predict
       {| get_json :=
            PyDict (<["data" :=
                        PyDict (<["capital-gain" := PyBool true]> d)]> r);
          data := body |} db
     = Ok (RespScore label pr None, db ++ [new_row s pr body])).
Proof.
  split.
  - intros d b. repeat split.
    + unfold check_age; simpl. rewrite lookup_insert_eq; simpl.
      rewrite (np_isnan_int64 (PyBool b) (if b then 1 else 0)); simpl;
        [|reflexivity|destruct b; lia].
      rewrite (np_isinf_int64 (PyBool b) (if b then 1 else 0)); simpl;
        [|reflexivity|destruct b; lia].
      now destruct b.
    + unfold check_capital_gain; simpl. rewrite lookup_insert_eq.
      now destruct b.
    + unfold check_capital_loss; simpl. rewrite lookup_insert_eq.
      now destruct b.
    + unfold check_hours_per_week; simpl. rewrite lookup_insert_eq.
      now destruct b.
  - intros r d s body db pr label Hid Hd Hval Hscore Hnew.
    pose proof (validated_bool_gain r d (mk_is_Some _ _ Hid) Hd Hval) as Hv.
    destruct (predict_scores {| get_json := _; data := body |} db Hv)
      as (i & obs & Hi & Hobs & ->).
    simpl in Hi, Hobs. rewrite lookup_insert_ne, Hid in Hi by done.
    rewrite lookup_insert_eq in Hobs.
    injection Hi as <-. injection Hobs as <-.
    rewrite Hscore; simpl.
    now rewrite (insert_fresh _ s _ _ _ (text_of_str s) Hnew).
Qed.

Lemma bool_accepted_as_int_witness :
  @predict int64_numpy demo_classifier strict_fields
    {| get_json :=
         PyDict (<["data" :=
                     PyDict (<["capital-gain" := PyBool true]>
                               sample_observation)]> sample_envelope);
       data := "{...a1...}" |} []
  = Ok (RespScore true 0.75%float None,
        [] ++ [new_row "a1" 0.75%float "{...a1...}"]).
Proof.
  apply (proj2 (@bool_accepted_as_int int64_numpy int64_numpy_laws
                  demo_classifier strict_fields strict_fields_laws));
    vm_compute; reflexivity.
Defined.

(** ** Label updates *)

Lemma Prediction_get_found `{Fields} (v : pyval) (s : string)
    (db : list Prediction) (i : nat) (p : Prediction) :
  TextField_db_value v = Ok (Some s) -> unique_ids db ->
  db !! i = Some p -> observation_id p = s ->
  Prediction_get v db = Ok (i, p).
Proof.
  intros Hv Huniq Hi Hp. unfold Prediction_get. rewrite Hv; simpl.
  assert (Hfind : list_find (fun q => observation_id q = s) db = Some (i, p)).
  { apply list_find_Some. split; [assumption|]. split; [assumption|].
    intros j q Hj Hlt Hq.
    assert (j = i); [|lia].
    apply (NoDup_lookup _ j i s Huniq);
      rewrite list_lookup_fmap; [rewrite Hj|rewrite Hi]; simpl; congruence. }
  now rewrite Hfind.
Qed.

Lemma Prediction_get_missing `{Fields} (v : pyval) (s : string)
    (db : list Prediction) :
  TextField_db_value v = Ok (Some s) -> s ∉ observation_id <$> db ->
  Prediction_get v db = Raise DoesNotExist.
Proof.
  intros Hv Hnew. unfold Prediction_get. rewrite Hv; simpl.
  assert (Hfind : list_find (fun q => observation_id q = s) db = None).
  { apply list_find_None, Forall_forall. intros q Hq Hs. apply Hnew.
    apply list_elem_of_fmap. eauto. }
  now rewrite Hfind.
Qed.

Lemma Prediction_get_cases `{Fields} (v : pyval) (s : string)
    (db : list Prediction) :
  TextField_db_value v = Ok (Some s) ->
  Prediction_get v db = Raise DoesNotExist \/
  exists ip, Prediction_get v db = Ok ip.
Proof.
  intros Hv. unfold Prediction_get. rewrite Hv; simpl.
  destruct (list_find _ db); eauto.
Qed.

Lemma update_unknown `{F : Fields} `{!FieldsLaws F} (d : gmap string pyval)
    (s : string) (db : list Prediction) :
  d !! "observation_id" = Some (PyStr s) -> s ∉ observation_id <$> db ->
  update (PyDict d) db = Ok (RespError (does_not_exist (PyStr s)), db).
Proof.
  intros Hid Hnew. unfold update; simpl. rewrite Hid; simpl.
  now rewrite (Prediction_get_missing _ s _ (text_of_str s) Hnew).
Qed.

Lemma update_known `{F : Fields} `{!FieldsLaws F} (d : gmap string pyval)
    (s : string) (db : list Prediction) (i : nat) (p : Prediction)
    (tc : pyval) (z : Z) :
  d !! "observation_id" = Some (PyStr s) -> unique_ids db ->
  db !! i = Some p -> observation_id p = s ->
  d !! "true_class" = Some tc -> int_value tc = Some z -> int32 z ->
  update (PyDict d) db
  = Ok (RespRecord (model_to_dict p tc),
        <[i := set_true_class p (Some z)]> db).
Proof.
  intros Hid Huniq Hi Hp Htc Hz H32. unfold update; simpl.
  rewrite Hid; simpl.
  rewrite (Prediction_get_found _ s _ i p (text_of_str s) Huniq Hi Hp); simpl.
  rewrite Htc; simpl.
  now rewrite (integer_of_int tc z Hz H32).
Qed.

(** C5: [update] on a request whose [observation_id] is the identifier of a
    stored row sets that row's [true_class] to the submitted integer, keeps
    every other row and every other column, and returns the row's fields
    with the submitted label; on an identifier no row has, it returns the
    unknown-identifier error and the table, hence [list_db_contents], is
    unchanged. *)
Theorem update_label `{F : Fields} `{!FieldsLaws F} (d : gmap string pyval)
    (s : string) (db : list Prediction) :
  d !! "observation_id" = Some (PyStr s) -> unique_ids db ->
  (forall i p tc z,
     db !! i = Some p -> observation_id p = s ->
     d !! "true_class" = Some tc -> int_value tc = Some z -> int32 z ->
     exists db',
       update (PyDict d) db
       = Ok (RespRecord {| d_observation_id := s;
                           d_observation := observation p;
                           d_proba := proba p;
                           d_true_class := tc |}, db') /\
       db' !! i = Some {| observation_id := s; observation := observation p;
                          proba := proba p; true_class := Some z |} /\
       (forall j, j ≠ i -> db' !! j = db !! j) /\
       length db' = length db) /\
  (s ∉ observation_id <$> db ->
     update (PyDict d) db
     = Ok (RespError (Format ("Observation ID: " +:+ dquote +:+ "{}" +:+ dquote
                              +:+ " does not exist") [ArgVal (PyStr s)]), db) /\
     forall resp db', update (PyDict d) db = Ok (resp, db') ->
       list_db_contents db' = list_db_contents db).
Proof.
  intros Hid Huniq. split.
  - intros i p tc z Hi Hp Htc Hz H32.
    exists (<[i := set_true_class p (Some z)]> db).
    rewrite (update_known d s db i p tc z) by assumption.
    unfold model_to_dict, set_true_class. rewrite Hp.
    split; [reflexivity|]. split; [|split].
    + apply list_lookup_insert_eq. now apply lookup_lt_Some in Hi.
    + intros j Hj. now apply list_lookup_insert_ne.
    + apply length_insert.
  - intros Hnew. rewrite (update_unknown d s db Hid Hnew).
    split; [reflexivity|]. now intros resp db' [= _ <-].
Qed.

Lemma update_label_witness :
  exists db',
    @update strict_fields (PyDict sample_update) sample_table
    = Ok (RespRecord {| d_observation_id := "a1";
                        d_observation := "{...a1...}";
                        d_proba := 0.75%float;
                        d_true_class := PyInt 1 |}, db') /\
    db' !! 1%nat = Some {| observation_id := "a1";
                           observation := "{...a1...}";
                           proba := 0.75%float; true_class := Some 1 |} /\
    (forall j, j ≠ 1%nat -> db' !! j = sample_table !! j) /\
    length db' = length sample_table.
Proof.
  apply (proj1 (@update_label strict_fields strict_fields_laws sample_update
                  "a1" sample_table eq_refl
                  ltac:(apply (bool_decide_unpack _); vm_compute; exact I))
           1%nat (new_row "a1" 0.75%float "{...a1...}") (PyInt 1) 1);
    try reflexivity.
  unfold int32. lia.
Defined.

(** ** The table invariant *)

Lemma existsb_has_id (s : string) (db : list Prediction) :
  existsb (has_id s) db = false -> s ∉ observation_id <$> db.
Proof.
  intros Hnew Hin. apply list_elem_of_fmap in Hin as (p & -> & Hp).
  assert (existsb (has_id (observation_id p)) db = true); [|congruence].
  apply existsb_exists. exists p. split; [now apply list_elem_of_In|].
  apply String.eqb_refl.
Qed.

Lemma predict_unique_ids `{Numpy} `{Classifier} `{Fields}
    (request : http_request) (db db' : list Prediction) (resp : response) :
  predict request db = Ok (resp, db') -> unique_ids db -> unique_ids db'.
Proof.
  unfold predict, checked. intros Hp Huniq.
  repeat match type of Hp with
  | bind ?m _ = Ok _ =>
      let c := fresh "c" in
      destruct m as [c|] eqn:?; simpl in Hp; [|discriminate Hp];
      try (destruct c as [[] ?]; simpl in Hp;
           [|now injection Hp as _ <-])
  end.
  unfold try_except in Hp.
  destruct (insert _ _ _ _) as [t|e] eqn:Hins; simpl in Hp.
  - injection Hp as _ <-. apply insert_Ok in Hins as (s & _ & Hnew & ->).
    unfold unique_ids. rewrite fmap_app. apply NoDup_app.
    split; [assumption|]. split; [|apply NoDup_singleton].
    intros x Hx Hx'. apply list_elem_of_singleton in Hx' as ->.
    now apply (existsb_has_id _ _ Hnew).
  - destruct (is_IntegrityError e); [|discriminate].
    now injection Hp as _ <-.
Qed.

Lemma try_except_Ok {A : Type} (body handler : res A)
    (catches : pyexc -> bool) (a : A) :
  try_except body catches handler = Ok a -> body = Ok a \/ handler = Ok a.
Proof.
  unfold try_except. destruct body as [b|e]; [now left|].
  destruct (catches e); [now right|discriminate].
Qed.

Lemma update_unique_ids `{Fields} (obs : pyval) (db db' : list Prediction)
    (resp : response) :
  update obs db = Ok (resp, db') -> unique_ids db -> unique_ids db'.
Proof.
  unfold update. intros Hu Huniq.
  apply try_except_Ok in Hu as [Hu|Hu];
    destruct (py_getitem obs "observation_id") as [i|] eqn:Hi; simpl in Hu;
    try discriminate; [|now injection Hu as _ <-].
  destruct (Prediction_get i db) as [[n p]|e] eqn:Hget; simpl in Hu;
    [|discriminate].
  destruct (py_getitem obs "true_class") as [tc|]; simpl in Hu;
    [|discriminate].
  destruct (IntegerField_db_value tc) as [c|e]; simpl in Hu; [|discriminate].
  injection Hu as _ <-. unfold unique_ids.
  rewrite list_fmap_insert; simpl. rewrite list_insert_id; [assumption|].
  unfold Prediction_get in Hget.
  destruct (TextField_db_value i) as [[s|]|]; simpl in Hget;
    try discriminate.
  destruct (list_find _ db) as [[m q]|] eqn:Hfind; [|discriminate].
  injection Hget as -> ->. apply list_find_Some in Hfind as [Hn _].
  now rewrite list_lookup_fmap, Hn.
Qed.

(** ** The handlers on well-shaped requests *)

Lemma check_categories_total (items : list (string * list string))
    (d : gmap string pyval) :
  exists c, check_categories items (PyDict d) = Ok c.
Proof.
  induction items as [|[key allowed] items IH]; simpl; [eauto|].
  destruct (d !! key) as [v|] eqn:Hv.
  - rewrite bool_decide_eq_true_2 by eauto; simpl.
    destruct (py_in_strs v allowed); simpl; eauto.
  - rewrite bool_decide_eq_false_2 by (intros [? [=]]); simpl. eauto.
Qed.

Lemma check_age_total `{N : Numpy} `{!NumpyLaws N} (d : gmap string pyval) :
  (forall v z, d !! "age" = Some v -> int_value v = Some z -> int64 z) ->
  exists c, check_age (PyDict d) = Ok c.
Proof.
  intros H64. unfold check_age; simpl.
  destruct (d !! "age") as [v|]; simpl; [|eauto].
  destruct (is_none v); [eauto|].
  destruct (int_value v) as [z|] eqn:Hz; [|eauto].
  rewrite (np_isnan_int64 v z Hz (H64 v z eq_refl Hz)); simpl.
  rewrite (np_isinf_int64 v z Hz (H64 v z eq_refl Hz)); simpl.
  destruct ((z <? 10) || (z >? 100)); eauto.
Qed.

Lemma numeric_rule_total (check : check_result) (d : gmap string pyval)
    (field : string) (lo : Z) (hi : option Z) :
  numeric_rule check d field lo hi (fun _ => True) ->
  exists c, check = Ok c.
Proof.
  intros (Hok & _ & Htype & Hrange).
  destruct (int_value (default PyNone (d !! field))) as [z|] eqn:Hz.
  - destruct (d !! field) as [v|] eqn:Hv; [|discriminate]. simpl in Hz.
    pose proof (in_range_dec lo hi z) as Hr.
    destruct ((z <? lo) || from_option (fun h => z >? h) false hi).
    + assert (Hout : ~ in_range lo hi z) by (rewrite Hr; discriminate).
      destruct (Hrange v z eq_refl Hz I Hout) as [t ->]. eauto.
    + exists (true, no_error). apply Hok. exists v, z. tauto.
  - destruct (Htype _ eq_refl Hz) as [t ->]. eauto.
Qed.

Lemma checked_cases (check : check_result) (db : list Prediction)
    (k : handler_result) :
  (exists c, check = Ok c) ->
  checked check db k = k \/ responds (checked check db k).
Proof.
  intros [[[] m] ->]; [now left|right]. unfold responds; simpl. eauto.
Qed.

(** C8, as the code has it: [predict] answers every request that is a JSON
    object whose identifier is a string and whose [data] is a JSON object
    (with an [age] that fits 64 bits when it is an integer), unless the
    scoring step itself raises; [update] answers every request that is a
    JSON object with a string identifier and a 32-bit integer label. *)
Theorem handlers_respond `{N : Numpy} `{!NumpyLaws N} `{Classifier}
    `{F : Fields} `{!FieldsLaws F} :
  (forall (r : gmap string pyval) (body : string) (db : list Prediction),
     (forall v, r !! "observation_id" = Some v -> exists s, v = PyStr s) ->
     (forall o, r !! "data" = Some o ->
        exists d, o = PyDict d /\
          forall v z, d !! "age" = Some v -> int_value v = Some z -> int64 z) ->
     responds (predict {| get_json := PyDict r; data := body |} db) \/
     exists e, on_data score (PyDict r) = Raise e /\
               predict {| get_json := PyDict r; data := body |} db = Raise e) /\
  (forall (d : gmap string pyval) (s : string) (db : list Prediction),
     d !! "observation_id" = Some (PyStr s) ->
     (exists tc z, d !! "true_class" = Some tc /\ int_value tc = Some z /\
                   int32 z) ->
     responds (update (PyDict d) db)).
Proof.
  split.
  - intros r body db Hid Hdata. unfold predict; simpl.
    rewrite check_request_dict.
    destruct (r !! "observation_id") as [i|] eqn:Hi;
      [|left; unfold responds; simpl; eauto].
    destruct (r !! "data") as [o|] eqn:Ho;
      [|left; unfold responds; simpl; eauto].
    destruct (Hid i eq_refl) as [s ->].
    destruct (Hdata o eq_refl) as (d & -> & H64).
    unfold on_data; simpl. rewrite Ho; simpl.
    repeat match goal with
    | |- responds (checked ?c db ?k) \/ _ =>
        let Hc := fresh "Hc" in
        assert (Hc : exists x, c = Ok x);
        [ first [ rewrite check_valid_column_dict; repeat case_decide; eauto
                | apply check_categories_total
                | now apply check_age_total
                | eapply numeric_rule_total, check_capital_gain_rule
                | eapply numeric_rule_total, check_capital_loss_rule
                | eapply numeric_rule_total, check_hours_per_week_rule ]
        | destruct (checked_cases c db k Hc) as [->|?]; [clear Hc|now left] ]
    end.
    unfold score.
    destruct (make_frame (PyDict d)) as [f|e]; simpl; [|right; eauto].
    destruct (predict_proba f) as [pr|e]; simpl; [|right; eauto].
    destruct (pipeline_predict f) as [label|e]; simpl; [|right; eauto].
    left. unfold insert. rewrite text_of_str; simpl.
    destruct (existsb (has_id s) db); unfold responds; simpl; eauto.
  - intros d s db Hid (tc & z & Htc & Hz & H32). unfold update; simpl.
    rewrite Hid; simpl.
    destruct (Prediction_get_cases (PyStr s) s db (text_of_str s))
      as [->|[ip ->]]; simpl; unfold responds; [eauto|].
    rewrite Htc; simpl. rewrite (integer_of_int tc z Hz H32); simpl. eauto.
Qed.

Lemma handlers_respond_witness :
  responds (@update strict_fields (PyDict sample_update) sample_table).
Proof.
  apply (proj2 (@handlers_respond int64_numpy int64_numpy_laws
                  demo_classifier strict_fields strict_fields_laws)
           sample_update "a1" sample_table eq_refl).
  exists (PyInt 1), 1. split; [reflexivity|]. split; [reflexivity|].
  unfold int32. lia.
Defined.

(** An [/update] request without [observation_id] raises [KeyError], which
    the handler does not catch. *)
Lemma update_without_id `{Fields} (d : gmap string pyval)
    (db : list Prediction) :
  d !! "observation_id" = None ->
  update (PyDict d) db = Raise (KeyError "observation_id").
Proof. intros Hid. unfold update; simpl. now rewrite Hid. Qed.

(** A [/predict] request whose body is JSON [null] raises [TypeError]. *)
Lemma predict_null `{Numpy} `{Classifier} `{Fields} (body : string)
    (db : list Prediction) :
  predict {| get_json := PyNone; data := body |} db = Raise TypeError.
Proof. reflexivity. Qed.

(** C8 as the specification words it fails: an exception leaves [update] on
    the empty JSON object, and [predict] on JSON [null]. *)
Lemma malformed_requests_raise :
  @update strict_fields (PyDict ∅) sample_table
    = Raise (KeyError "observation_id") /\
  @predict int64_numpy demo_classifier strict_fields
     {| get_json := PyNone; data := "null" |} sample_table
    = Raise TypeError.
Proof. split; reflexivity. Qed.

(** * Further properties of the handlers and the checks *)

(** ** The checks on their own *)

(** X1: the third test of [check_valid_column] never fires: on a dict the
    check returns the missing-columns error, the unrecognized-columns error
    or success, never the number-of-columns error. *)
Theorem cardinality_error_unreachable (d : gmap string pyval) (e : message) :
  check_valid_column (PyDict d) = Ok (false, e) ->
  template_of e ≠ "Number of columns provided is not correct: {}" /\
  (template_of e = "Missing columns: {}" \/
   template_of e = "Unrecognized columns provided: {}").
Proof.
  rewrite check_valid_column_dict.
  repeat case_decide; intros [= <-]; simpl; split; try discriminate; auto.
Qed.

Lemma cardinality_error_unreachable_witness :
  template_of (Format "Missing columns: {}"
                 [ArgSet (valid_columns ∖ dom (delete "age" sample_observation))])
    ≠ "Number of columns provided is not correct: {}" /\
  (template_of (Format "Missing columns: {}"
                 [ArgSet (valid_columns ∖ dom (delete "age" sample_observation))])
     = "Missing columns: {}" \/
   template_of (Format "Missing columns: {}"
                 [ArgSet (valid_columns ∖ dom (delete "age" sample_observation))])
     = "Unrecognized columns provided: {}").
Proof.
  apply (cardinality_error_unreachable (delete "age" sample_observation)).
  vm_compute. reflexivity.
Defined.

Lemma check_categories_flag (items : list (string * list string))
    (x : pyval) (ok : bool) (m : message) :
  check_categories items x = Ok (ok, m) -> (ok = true <-> m = no_error).
Proof.
  induction items as [|[key allowed] items IH]; simpl.
  - now intros [= <- <-].
  - destruct (py_in key x) as [[]|]; simpl; try discriminate.
    + destruct (py_getitem x key) as [v|]; simpl; [|discriminate].
      destruct (py_in_strs v allowed); simpl; [assumption|].
      intros [= <- <-]. split; discriminate.
    + intros [= <- <-]. split; discriminate.
Qed.

(** X2: the docstrings' contract: whatever value a check is run on, when it
    returns, its flag is [True] exactly when its message is the empty
    string. *)
Theorem check_flag_iff_empty_message `{Numpy} (check : pyval -> check_result)
    (x : pyval) (ok : bool) (m : message) :
  check ∈ all_checks -> check x = Ok (ok, m) ->
  (ok = true <-> m = no_error).
Proof.
  unfold all_checks. rewrite !elem_of_cons, elem_of_nil.
  intros [->|[->|[->|[->|[->|[->|[->|[]]]]]]]].
  - unfold check_request.
    destruct (py_in "observation_id" x) as [[]|]; simpl; try discriminate;
      [destruct (py_in "data" x) as [[]|]; simpl; try discriminate|];
      intros [= <- <-]; split; (reflexivity || discriminate).
  - unfold check_valid_column.
    destruct (py_keys x) as [keys|]; simpl; [|discriminate].
    repeat match goal with
    | |- context [if ?b then _ else _] => destruct b
    end; intros [= <- <-]; split; (reflexivity || discriminate).
  - apply check_categories_flag.
  - unfold check_age.
    destruct (py_get x "age") as [v|]; simpl; [|discriminate].
    destruct (is_none v); [intros [= <- <-]; split; discriminate|].
    destruct (int_value v) as [n|];
      [|intros [= <- <-]; split; discriminate].
    destruct (np_isnan v) as [[]|]; simpl; try discriminate;
      [intros [= <- <-]; split; discriminate|].
    destruct (np_isinf v) as [[]|]; simpl; try discriminate;
      [intros [= <- <-]; split; discriminate|].
    destruct ((n <? 10) || (n >? 100)); intros [= <- <-]; split;
      (reflexivity || discriminate).
  - unfold check_capital_gain.
    destruct (py_get x "capital-gain") as [v|]; simpl; [|discriminate].
    destruct (is_none v); [intros [= <- <-]; split; discriminate|].
    destruct (int_value v) as [n|];
      [|intros [= <- <-]; split; discriminate].
    destruct (n <? 0); intros [= <- <-]; split;
      (reflexivity || discriminate).
  - unfold check_capital_loss.
    destruct (py_get x "capital-loss") as [v|]; simpl; [|discriminate].
    destruct (is_none v); [intros [= <- <-]; split; discriminate|].
    destruct (int_value v) as [n|];
      [|intros [= <- <-]; split; discriminate].
    destruct (n <? 0); intros [= <- <-]; split;
      (reflexivity || discriminate).
  - unfold check_hours_per_week.
    destruct (py_get x "hours-per-week") as [v|]; simpl; [|discriminate].
    destruct (is_none v); [intros [= <- <-]; split; discriminate|].
    destruct (int_value v) as [n|];
      [|intros [= <- <-]; split; discriminate].
    destruct ((n <? 0) || (n >? 168)); intros [= <- <-]; split;
      (reflexivity || discriminate).
Qed.

Lemma check_flag_iff_empty_message_witness :
  false = true <-> Plain "Field `age` missing" = no_error.
Proof.
  apply (@check_flag_iff_empty_message int64_numpy (@check_age int64_numpy)
           (PyDict (<["age" := PyNone]> sample_observation))).
  - unfold all_checks. do 3 right. left.
  - vm_compute. reflexivity.
Defined.

Lemma prefix_spec (s t : string) :
  String.prefix s t = true <-> exists b, t = s +:+ b.
Proof.
  revert t. induction s as [|c s IH]; intros t.
  - split; [intros _; now exists t|intros _; now destruct t].
  - destruct t as [|c' t]; simpl;
      [split; [discriminate|now intros [b [=]]]|].
    destruct (Ascii.ascii_dec c c') as [->|Hne].
    + rewrite IH. split; intros [b Hb]; exists b; [now rewrite Hb|].
      now injection Hb.
    + split; [discriminate|]. intros [b [= Hc _]]. congruence.
Qed.

Lemma is_infix_unfold (s t : string) :
  is_infix s t =
    String.prefix s t ||
    match t with
    | EmptyString => false
    | String _ t' => is_infix s t'
    end.
Proof. now destruct t. Qed.

(** X3: [is_infix], the model of Python's [in] on two strings, holds
    exactly when the first string occurs somewhere in the second. *)
Theorem is_infix_spec (s t : string) :
  is_infix s t = true <-> exists a b, t = a +:+ s +:+ b.
Proof.
  split.
  - induction t as [|c t IH]; rewrite is_infix_unfold, orb_true_iff.
    + intros [Hp|[=]]. apply prefix_spec in Hp as [b Hb].
      now exists EmptyString, b.
    + intros [Hp|Hi].
      * apply prefix_spec in Hp as [b Hb]. now exists EmptyString, b.
      * destruct (IH Hi) as (a & b & ->). now exists (String c a), b.
  - intros (a & b & ->). induction a as [|c a IH]; rewrite is_infix_unfold.
    + assert (Hp : String.prefix s (s +:+ b) = true)
        by (apply prefix_spec; eauto).
      change (EmptyString +:+ s +:+ b) with (s +:+ b). now rewrite Hp.
    + change (String c a +:+ s +:+ b) with (String c (a +:+ s +:+ b)).
      cbv beta iota. rewrite IH. apply orb_true_r.
Qed.

(** ** Requests of the wrong shape *)



(** X5: when the request has both keys but [data] is not a JSON object,
    [predict] raises [AttributeError] at [observation.keys()]. *)
Theorem non_object_data_raises `{Numpy} `{Classifier} `{Fields}
    (r : gmap string pyval) (o : pyval) (body : string)
    (db : list Prediction) :
  is_Some (r !! "observation_id") -> r !! "data" = Some o ->
  (forall d, o ≠ PyDict d) ->
  predict {| get_json := PyDict r; data := body |} db = Raise AttributeError.
Proof.
  intros [i Hi] Ho Hd. unfold predict; simpl.
  rewrite check_request_dict, Hi, Ho; simpl.
  destruct o; try reflexivity. now destruct (Hd d).
Qed.

Lemma non_object_data_raises_witness :
  @predict int64_numpy demo_classifier strict_fields
    {| get_json := envelope (PyStr "a1") (PyInt 7); data := "{...}" |} []
  = Raise AttributeError.
Proof.
  apply (@non_object_data_raises int64_numpy demo_classifier strict_fields
           _ (PyInt 7)).
  - vm_compute. eauto.
  - reflexivity.
  - intros d. discriminate.
Defined.



(** ** Null fields *)

(** X7: a numeric field whose key is present is reported as missing exactly
    when its value is JSON [null]. *)
Theorem null_field_reported_missing `{Numpy} (d : gmap string pyval) :
  (d !! "age" = Some PyNone <->
     is_Some (d !! "age") /\
     check_age (PyDict d) = Ok (false, Plain "Field `age` missing")) /\
  (d !! "capital-gain" = Some PyNone <->
     is_Some (d !! "capital-gain") /\
     check_capital_gain (PyDict d)
       = Ok (false, Plain "Field `capital-gain` missing")) /\
  (d !! "capital-loss" = Some PyNone <->
     is_Some (d !! "capital-loss") /\
     check_capital_loss (PyDict d)
       = Ok (false, Plain "Field `capital-loss` missing")) /\
  (d !! "hours-per-week" = Some PyNone <->
     is_Some (d !! "hours-per-week") /\
     check_hours_per_week (PyDict d)
       = Ok (false, Plain "Field `hours-per-week` missing")).
Proof.
  unfold check_age, check_capital_gain, check_capital_loss,
    check_hours_per_week; simpl.
  split; [|split; [|split]].
  all: split;
    [ intros Hn; rewrite Hn; simpl; split; [eauto|reflexivity]
    | intros [[v Hv] Hc]; rewrite Hv in *; simpl in Hc;
      destruct v; simpl in Hc; try reflexivity; try discriminate Hc ].
  all: try (destruct (_ <? _); discriminate Hc).
  all: try (destruct (_ || _); discriminate Hc).
  all: destruct (np_isnan _) as [[]|]; simpl in Hc; try discriminate Hc;
    destruct (np_isinf _) as [[]|]; simpl in Hc; try discriminate Hc;
    destruct (_ || _); discriminate Hc.
Qed.

Lemma null_field_reported_missing_witness :
  is_Some ((<["age" := PyNone]> sample_observation) !! "age") /\
  @check_age int64_numpy (PyDict (<["age" := PyNone]> sample_observation))
  = Ok (false, Plain "Field `age` missing").
Proof.
  apply (@null_field_reported_missing int64_numpy
           (<["age" := PyNone]> sample_observation)).
  reflexivity.
Defined.

(** ** Where the responses of [predict] come from *)





(** X9: [predict] changes the table in one way only: when it answers with
    a score and no error, it has appended one row, with an identifier no
    row had, the raw body, the returned probability and no label.  With an
    error in the response the table is as it was. *)
Theorem predict_writes_only_on_success `{Numpy} `{Classifier} `{Fields}
    (request : http_request) (db db' : list Prediction) (resp : response) :
  predict request db = Ok (resp, db') ->
  (db' = db /\
   ((exists e, resp = RespError e) \/
    (exists label pr e, resp = RespScore label pr (Some e)))) \/
  (exists s label pr,
     (resp = RespScore label pr None) /\
     (s ∉ observation_id <$> db) /\
     db' = db ++ [ {| observation_id := s; observation := data request;
                      proba := pr; true_class := None |} ]).
Proof.
  unfold predict, checked. intros Hp.
  repeat match type of Hp with
  | bind ?m _ = Ok _ =>
      let c := fresh "c" in
      destruct m as [c|] eqn:?; simpl in Hp; [|discriminate Hp];
      try (destruct c as [[] ?]; simpl in Hp;
           [|injection Hp as <- <-; left; eauto])
  end.
  unfold try_except in Hp.
  destruct (insert _ _ _ _) as [t|e] eqn:Hins; simpl in Hp.
  - injection Hp as <- <-. apply insert_Ok in Hins as (s & _ & Hnew & ->).
    right. exists s. do 2 eexists. split; [reflexivity|].
    split; [now apply existsb_has_id|reflexivity].
  - destruct (is_IntegrityError e); [|discriminate].
    injection Hp as <- <-. left. split; [reflexivity|]. right. eauto.
Qed.

Lemma predict_writes_only_on_success_witness :
  ([new_row "a1" 0.75%float "{...a1...}"] = [] /\
   ((exists e, RespScore true 0.75%float None = RespError e) \/
    (exists label pr e,
       RespScore true 0.75%float None = RespScore label pr (Some e)))) \/
  (exists s label pr,
     (RespScore true 0.75%float None = RespScore label pr None) /\
     (s ∉ observation_id <$> []) /\
     [new_row "a1" 0.75%float "{...a1...}"]
     = [] ++ [ {| observation_id := s; observation := data sample_request;
                  proba := pr; true_class := None |} ]).
Proof.
  apply (@predict_writes_only_on_success int64_numpy demo_classifier
           strict_fields sample_request).
  vm_compute. reflexivity.
Defined.

(** ** The table over sequences of calls *)

Lemma same_record_refl (p : Prediction) : same_record p p.
Proof. now repeat split. Qed.

Lemma same_record_trans (p q r : Prediction) :
  same_record p q -> same_record q r -> same_record p r.
Proof. unfold same_record. intros (-> & -> & ->) (-> & -> & ->). auto. Qed.

Lemma predict_rows `{Numpy} `{Classifier} `{Fields}
    (request : http_request) (db db' : list Prediction) (resp : response) :
  predict request db = Ok (resp, db') ->
  forall i p, db !! i = Some p -> db' !! i = Some p.
Proof.
  intros Hp i p Hi.
  destruct (predict_table _ _ _ _ Hp) as [->|(s & q & ->)]; [assumption|].
  now apply lookup_app_l_Some.
Qed.

Lemma update_rows `{Fields} (obs : pyval) (db db' : list Prediction)
    (resp : response) :
  update obs db = Ok (resp, db') ->
  forall i p, db !! i = Some p ->
    exists p', db' !! i = Some p' /\ same_record p p'.
Proof.
  unfold update. intros Hu i p Hi.
  apply try_except_Ok in Hu as [Hu|Hu];
    destruct (py_getitem obs "observation_id") as [v|]; simpl in Hu;
    try discriminate;
    [|injection Hu as _ <-; exists p; split;
      [assumption|apply same_record_refl]].
  destruct (Prediction_get v db) as [[n q]|] eqn:Hget; simpl in Hu;
    [|discriminate].
  destruct (py_getitem obs "true_class") as [tc|]; simpl in Hu;
    [|discriminate].
  destruct (IntegerField_db_value tc) as [c|]; simpl in Hu; [|discriminate].
  injection Hu as _ <-.
  unfold Prediction_get in Hget.
  destruct (TextField_db_value v) as [[s|]|]; simpl in Hget;
    try discriminate.
  destruct (list_find _ db) as [[m r]|] eqn:Hfind; [|discriminate].
  injection Hget as -> ->. apply list_find_Some in Hfind as [Hn _].
  destruct (decide (n = i)) as [->|Hne].
  - exists (set_true_class q c). split.
    + apply list_lookup_insert_eq. now apply lookup_lt_Some in Hi.
    + assert (p = q) as -> by congruence. now repeat split.
  - exists p. split; [|apply same_record_refl].
    now rewrite list_lookup_insert_ne.
Qed.

Lemma table_after_keeps `{Numpy} `{Classifier} `{Fields} (c : call)
    (db : list Prediction) :
  unique_ids db ->
  unique_ids (table_after c db) /\
  forall i p, db !! i = Some p ->
    exists p', table_after c db !! i = Some p' /\ same_record p p'.
Proof.
  intros Huniq. destruct c as [request|obs|]; simpl.
  - destruct (predict request db) as [[resp db']|] eqn:Hp.
    + split; [now apply (predict_unique_ids _ _ _ _ Hp)|].
      intros i p Hi. exists p.
      split; [now apply (predict_rows _ _ _ _ Hp)|apply same_record_refl].
    + split; [assumption|]. intros i p Hi. exists p.
      split; [assumption|apply same_record_refl].
  - destruct (update obs db) as [[resp db']|] eqn:Hu.
    + split; [now apply (update_unique_ids _ _ _ _ Hu)|].
      now apply (update_rows _ _ _ _ Hu).
    + split; [assumption|]. intros i p Hi. exists p.
      split; [assumption|apply same_record_refl].
  - split; [assumption|]. intros i p Hi. exists p.
    split; [assumption|apply same_record_refl].
Qed.

(** X10: whatever sequence of [/predict], [/update] and
    [/list-db-contents] calls is served, identifiers stay unique, no row is
    removed or moved, and a row's [observation_id], [observation] and
    [proba] never change. *)
Theorem serve_keeps_records `{Numpy} `{Classifier} `{Fields}
    (calls : list call) (db : list Prediction) :
  unique_ids db ->
  unique_ids (serve calls db) /\
  forall i p, db !! i = Some p ->
    exists p', serve calls db !! i = Some p' /\ same_record p p'.
Proof.
  unfold serve. revert db.
  induction calls as [|c calls IH]; intros db Huniq; simpl.
  - split; [assumption|]. intros i p Hi. exists p.
    split; [assumption|apply same_record_refl].
  - destruct (table_after_keeps c db Huniq) as [Hu Hrows].
    destruct (IH _ Hu) as [Hu' Hrows']. split; [assumption|].
    intros i p Hi. destruct (Hrows i p Hi) as (q & Hq & Hpq).
    destruct (Hrows' i q Hq) as (r & Hr & Hqr).
    exists r. split; [assumption|]. now apply (same_record_trans p q r).
Qed.

Lemma serve_keeps_records_witness :
  unique_ids (@serve int64_numpy demo_classifier strict_fields
                [CallPredict sample_request; CallUpdate (PyDict sample_update);
                 CallList; CallPredict sample_request]
                [new_row "a0" 0.25%float "{...a0...}"]).
Proof.
  apply (@serve_keeps_records int64_numpy demo_classifier strict_fields).
  apply (bool_decide_unpack _). vm_compute. exact I.
Defined.

(** ** Round trips *)

Lemma predict_appends `{Numpy} `{Classifier} `{Fields}
    (request : http_request) (db db' : list Prediction) (label : bool)
    (pr : float) :
  predict request db = Ok (RespScore label pr None, db') ->
  exists _id s,
    py_getitem (get_json request) "observation_id" = Ok _id /\
    TextField_db_value _id = Ok (Some s) /\
    existsb (has_id s) db = false /\
    db' = db ++ [new_row s pr (data request)].
Proof.
  intros Hp. destruct (predict_score_inv _ _ _ _ _ _ Hp) as [Hval Hscore].
  destruct (predict_scores request db Hval) as (_id & obs & Hid & Hobs & Heq).
  rewrite Heq in Hp. rewrite (on_data_at _ _ _ Hobs) in Hscore.
  rewrite Hscore in Hp; simpl in Hp. unfold try_except in Hp.
  destruct (insert _id pr (data request) db) as [t|e] eqn:Hins; simpl in Hp.
  - injection Hp as <-. apply insert_Ok in Hins as (s & Hs & Hnew & ->).
    exists _id, s. now repeat split.
  - destruct (is_IntegrityError e); discriminate.
Qed.

(** X11: after a [predict] that answered with a score and no error,
    [list_db_contents] returns what it returned before followed by one
    record: the raw body, the returned probability and a null label. *)
Theorem predict_then_list `{Numpy} `{Classifier} `{Fields}
    (request : http_request) (db db' : list Prediction) (label : bool)
    (pr : float) (before : list record_dict) :
  predict request db = Ok (RespScore label pr None, db') ->
  list_db_contents db = RespList before ->
  exists s,
    list_db_contents db' =
      RespList (before ++ [ {| d_observation_id := s;
                               d_observation := data request;
                               d_proba := pr;
                               d_true_class := PyNone |} ]).
Proof.
  intros Hp Hl. apply predict_appends in Hp as (_id & s & _ & _ & _ & ->).
  exists s. unfold list_db_contents in *. injection Hl as <-.
  now rewrite map_app.
Qed.

Lemma predict_then_list_witness :
  exists s,
    list_db_contents [new_row "a1" 0.75%float "{...a1...}"] =
      RespList ([] ++ [ {| d_observation_id := s;
                           d_observation := data sample_request;
                           d_proba := 0.75%float;
                           d_true_class := PyNone |} ]).
Proof.
  apply (@predict_then_list int64_numpy demo_classifier strict_fields
           sample_request [] _ true).
  - vm_compute. reflexivity.
  - reflexivity.
Defined.

(** X12: a label can be attached to what [predict] has just stored:
    [update] with the same string identifier returns the stored body and
    probability with the submitted label, and the table is the old one
    followed by that labelled row. *)
Theorem predict_then_update `{Numpy} `{Classifier} `{F : Fields}
    `{!FieldsLaws F} (request : http_request) (db db' : list Prediction)
    (label : bool) (pr : float) (s : string) (d : gmap string pyval)
    (tc : pyval) (z : Z) :
  unique_ids db ->
  py_getitem (get_json request) "observation_id" = Ok (PyStr s) ->
  predict request db = Ok (RespScore label pr None, db') ->
  d !! "observation_id" = Some (PyStr s) ->
  d !! "true_class" = Some tc -> int_value tc = Some z -> int32 z ->
  update (PyDict d) db'
  = Ok (RespRecord {| d_observation_id := s; d_observation := data request;
                      d_proba := pr; d_true_class := tc |},
        db ++ [ {| observation_id := s; observation := data request;
                   proba := pr; true_class := Some z |} ]).
Proof.
  intros Huniq Hid Hp Hd Htc Hz H32.
  pose proof (predict_unique_ids _ _ _ _ Hp Huniq) as Huniq'.
  apply predict_appends in Hp as (i & s' & Hi & Hs & _ & ->).
  rewrite Hid in Hi. injection Hi as <-.
  rewrite text_of_str in Hs. injection Hs as <-.
  rewrite (update_known d s _ (length db) (new_row s pr (data request)) tc z);
    try assumption; try reflexivity.
  - rewrite insert_app_r_alt, Nat.sub_diag by lia. reflexivity.
  - rewrite lookup_app_r, Nat.sub_diag by lia. reflexivity.
Qed.

Lemma predict_then_update_witness :
  @update strict_fields (PyDict sample_update)
    [new_row "a1" 0.75%float "{...a1...}"]
  = Ok (RespRecord {| d_observation_id := "a1";
                      d_observation := data sample_request;
                      d_proba := 0.75%float; d_true_class := PyInt 1 |},
        [] ++ [ {| observation_id := "a1";
                   observation := data sample_request;
                   proba := 0.75%float; true_class := Some 1 |} ]).
Proof.
  apply (@predict_then_update int64_numpy demo_classifier strict_fields
           strict_fields_laws sample_request [] _ true 0.75%float "a1"
           sample_update (PyInt 1) 1);
    try (vm_compute; reflexivity).
  - apply NoDup_nil_2.
  - unfold int32. lia.
Defined.

(** ** Edge cases of [update] *)

(** X13: a later [update] overwrites an earlier one: after two updates of
    the same row the response and the table are those of the second update
    alone. *)
Theorem update_overwrites `{F : Fields} `{!FieldsLaws F}
    (d1 d2 : gmap string pyval) (s : string) (db : list Prediction)
    (i : nat) (p : Prediction) (tc1 tc2 : pyval) (z1 z2 : Z) :
  unique_ids db -> db !! i = Some p -> observation_id p = s ->
  d1 !! "observation_id" = Some (PyStr s) ->
  d1 !! "true_class" = Some tc1 -> int_value tc1 = Some z1 -> int32 z1 ->
  d2 !! "observation_id" = Some (PyStr s) ->
  d2 !! "true_class" = Some tc2 -> int_value tc2 = Some z2 -> int32 z2 ->
  exists resp1 db1,
    update (PyDict d1) db = Ok (resp1, db1) /\
    update (PyDict d2) db1 = update (PyDict d2) db /\
    update (PyDict d2) db1
    = Ok (RespRecord (model_to_dict p tc2),
          <[i := set_true_class p (Some z2)]> db).
Proof.
  intros Huniq Hi Hp Hid1 Htc1 Hz1 H1 Hid2 Htc2 Hz2 H2.
  pose proof (update_known d1 s db i p tc1 z1 Hid1 Huniq Hi Hp Htc1 Hz1 H1)
    as Hu1.
  pose proof (update_known d2 s db i p tc2 z2 Hid2 Huniq Hi Hp Htc2 Hz2 H2)
    as Hu2.
  do 2 eexists. split; [exact Hu1|].
  assert (Hu3 : update (PyDict d2) (<[i := set_true_class p (Some z1)]> db)
                = Ok (RespRecord (model_to_dict p tc2),
                      <[i := set_true_class p (Some z2)]> db)).
  { rewrite (update_known d2 s _ i (set_true_class p (Some z1)) tc2 z2);
      try assumption.
    - now rewrite list_insert_insert_eq.
    - now apply (update_unique_ids _ _ _ _ Hu1).
    - apply list_lookup_insert_eq. now apply lookup_lt_Some in Hi. }
  split; [now rewrite Hu3, Hu2|exact Hu3].
Qed.

Lemma update_overwrites_witness :
  exists resp1 db1,
    @update strict_fields
      (PyDict (<["true_class" := PyInt 0]> sample_update)) sample_table
      = Ok (resp1, db1) /\
    @update strict_fields (PyDict sample_update) db1
      = @update strict_fields (PyDict sample_update) sample_table /\
    @update strict_fields (PyDict sample_update) db1
    = Ok (RespRecord (model_to_dict (new_row "a1" 0.75%float "{...a1...}")
                        (PyInt 1)),
          <[1%nat := set_true_class (new_row "a1" 0.75%float "{...a1...}")
                       (Some 1)]> sample_table).
Proof.
  apply (@update_overwrites strict_fields strict_fields_laws
           (<["true_class" := PyInt 0]> sample_update) sample_update "a1"
           sample_table 1%nat (new_row "a1" 0.75%float "{...a1...}")
           (PyInt 0) (PyInt 1) 0 1);
    try reflexivity; try (unfold int32; lia).
  apply (bool_decide_unpack _). vm_compute. exact I.
Defined.

(** X14: [update] reads [true_class] only after it has found the row: a
    request without [true_class] raises [KeyError] when the identifier is
    stored, and gets the ordinary unknown-identifier error when it is
    not. *)
Theorem update_without_label `{F : Fields} `{!FieldsLaws F}
    (d : gmap string pyval) (s : string) (db : list Prediction) :
  d !! "observation_id" = Some (PyStr s) -> d !! "true_class" = None ->
  unique_ids db ->
  (s ∈ observation_id <$> db ->
     update (PyDict d) db = Raise (KeyError "true_class")) /\
  (s ∉ observation_id <$> db ->
     update (PyDict d) db = Ok (RespError (does_not_exist (PyStr s)), db)).
Proof.
  intros Hid Htc Huniq. split.
  - intros Hin. apply list_elem_of_fmap in Hin as (p & Hp & Hin).
    apply list_elem_of_lookup in Hin as [i Hi].
    unfold update; simpl. rewrite Hid; simpl.
    rewrite (Prediction_get_found _ s _ i p (text_of_str s) Huniq Hi);
      [|congruence].
    simpl. now rewrite Htc.
  - now apply update_unknown.
Qed.

Lemma update_without_label_witness :
  @update strict_fields (PyDict {["observation_id" := PyStr "a1"]})
    sample_table
  = Raise (KeyError "true_class").
Proof.
  apply (@update_without_label strict_fields strict_fields_laws
           {["observation_id" := PyStr "a1"]} "a1" sample_table).
  - reflexivity.
  - reflexivity.
  - apply (bool_decide_unpack _). vm_compute. exact I.
  - apply (bool_decide_unpack _). vm_compute. exact I.
Defined.

(** X15: the record [update] returns carries the label as it was
    submitted, the table the integer it stands for: with a boolean label
    the response shows the boolean while [list_db_contents] shows 0 or
    1. *)
Theorem update_bool_label `{F : Fields} `{!FieldsLaws F}
    (d : gmap string pyval) (s : string) (db : list Prediction) (i : nat)
    (p : Prediction) (b : bool) :
  unique_ids db -> db !! i = Some p -> observation_id p = s ->
  d !! "observation_id" = Some (PyStr s) ->
  d !! "true_class" = Some (PyBool b) ->
  exists r db' rows,
    update (PyDict d) db = Ok (RespRecord r, db') /\
    d_true_class r = PyBool b /\
    list_db_contents db' = RespList rows /\
    d_true_class <$> rows !! i = Some (PyInt (if b then 1 else 0)).
Proof.
  intros Huniq Hi Hp Hid Htc.
  do 3 eexists. split; [|split; [|split; [reflexivity|]]].
  - apply (update_known d s db i p (PyBool b) (if b then 1 else 0));
      try assumption; try reflexivity.
    unfold int32. destruct b; lia.
  - reflexivity.
  - rewrite list_lookup_fmap, list_lookup_insert_eq
      by now apply lookup_lt_Some in Hi.
    reflexivity.
Qed.

Lemma update_bool_label_witness :
  exists r db' rows,
    @update strict_fields
      (PyDict (<["true_class" := PyBool true]> sample_update)) sample_table
      = Ok (RespRecord r, db') /\
    d_true_class r = PyBool true /\
    list_db_contents db' = RespList rows /\
    d_true_class <$> rows !! 1%nat = Some (PyInt 1).
Proof.
  apply (@update_bool_label strict_fields strict_fields_laws
           (<["true_class" := PyBool true]> sample_update) "a1" sample_table
           1%nat (new_row "a1" 0.75%float "{...a1...}") true);
    try reflexivity.
  apply (bool_decide_unpack _). vm_compute. exact I.
Defined.

(** ** Edge cases of [predict] *)

(** X16: an identifier peewee stores as NULL (JSON [null]) is scored but
    never stored: the insert is refused, and the response carries the
    already-exists error whatever the table holds. *)
Theorem null_id_reported_duplicate `{Numpy} `{Classifier} `{Fields}
    (request : http_request) (db : list Prediction) (_id : pyval)
    (pr : float) (label : bool) :
  validated (get_json request) = true ->
  py_getitem (get_json request) "observation_id" = Ok _id ->
  TextField_db_value _id = Ok None ->
  on_data score (get_json request) = Ok (pr, label) ->
  predict request db
  = Ok (RespScore label pr
          (Some (Format "ERROR: Observation ID: '{}' already exists"
                   [ArgVal _id])), db).
Proof.
  intros Hval Hid Hnull Hscore.
  destruct (predict_scores request db Hval) as (i & obs & Hi & Hobs & ->).
  rewrite Hid in Hi. injection Hi as <-.
  rewrite (on_data_at _ _ _ Hobs) in Hscore. rewrite Hscore; simpl.
  unfold insert. now rewrite Hnull.
Qed.

Lemma null_id_reported_duplicate_witness :
  @predict int64_numpy demo_classifier strict_fields
    {| get_json := envelope PyNone (PyDict sample_observation);
       data := "{...null...}" |} []
  = Ok (RespScore true 0.75%float
          (Some (Format "ERROR: Observation ID: '{}' already exists"
                   [ArgVal PyNone])), []).
Proof.
  apply (@null_id_reported_duplicate int64_numpy demo_classifier
           strict_fields);
    vm_compute; reflexivity.
Defined.

(** ** The unformatted error of the categorical check *)

Lemma check_categories_present_errors (d : gmap string pyval)
    (items : list (string * list string)) (e : message) :
  Forall (fun item => is_Some (d !! item.1)) items ->
  check_categories items (PyDict d) = Ok (false, e) ->
  exists key v allowed, e = invalid_category key v allowed.
Proof.
  induction 1 as [|[key allowed] items [v Hv] _ IH]; [discriminate|].
  rewrite (check_categories_step _ _ _ _ _ Hv).
  destruct (py_in_strs v allowed); [assumption|].
  intros [= <-]. eauto.
Qed.

(** X17: when the first categorical field that is not fine is absent, the
    check returns the literal text with its placeholder unfilled, which
    names no field; in [predict]'s order, after a passed column check,
    this error cannot occur. *)
Theorem missing_category_message (d : gmap string pyval) :
  (forall pre post key allowed,
     valid_category_map = pre ++ (key, allowed) :: post ->
     Forall (category_ok d) pre -> d !! key = None ->
     check_categorical_values (PyDict d)
       = Ok (false, Plain "Categorical field {} missing") /\
     names_field (Plain "Categorical field {} missing") key = false) /\
  (check_valid_column (PyDict d) = Ok (true, no_error) ->
   check_categorical_values (PyDict d)
     ≠ Ok (false, Plain "Categorical field {} missing")).
Proof.
  split.
  - intros pre post key allowed Hsplit Hpre Hkey. split.
    + unfold check_categorical_values. rewrite Hsplit. clear Hsplit.
      induction Hpre as [|[k a] pre (s & Hs & Hin) _ IH]; simpl.
      * now rewrite bool_decide_eq_false_2
          by (rewrite Hkey; intros [? [=]]).
      * simpl in Hs. rewrite (bool_decide_eq_true_2 _ (mk_is_Some _ _ Hs)).
        simpl. rewrite Hs; simpl.
        assert (Hok : py_in_strs (PyStr s) a = true)
          by (apply py_in_strs_spec; eauto).
        now rewrite Hok.
    + assert (Hin : (key, allowed) ∈ valid_category_map)
        by (rewrite Hsplit; apply elem_of_app; right; left).
      assert (Hall : Forall (fun item : string * list string =>
                names_field (Plain "Categorical field {} missing") item.1
                = false) valid_category_map)
        by (repeat constructor).
      rewrite Forall_forall in Hall. exact (Hall _ Hin).
  - intros Hcols Hc.
    apply (check_categories_present_errors d) in Hc
      as (key & v & allowed & [=]).
    now apply categorical_keys_present.
Qed.

Lemma missing_category_message_witness :
  check_categorical_values (PyDict (delete "race" sample_observation))
  = Ok (false, Plain "Categorical field {} missing") /\
  names_field (Plain "Categorical field {} missing") "race" = false.
Proof.
  refine (proj1 (missing_category_message (delete "race" sample_observation))
            [("sex", ["Male"; "Female"])] _ "race"
            ["White"; "Black"; "Asian-Pac-Islander"; "Amer-Indian-Eskimo";
             "Other"] _ _ _).
  - reflexivity.
  - constructor; [|constructor]. exists "Male".
    split; [reflexivity|decide_by_compute].
  - reflexivity.
Defined.

(** ** More on how the routes compose *)

(** X18: with an integer label, the record [update] returns is the one
    [list_db_contents] then shows at the row's position, and the listing
    has as many records as before. *)
Theorem update_then_list `{F : Fields} `{!FieldsLaws F}
    (d : gmap string pyval) (s : string) (db : list Prediction) (i : nat)
    (p : Prediction) (z : Z) :
  unique_ids db -> db !! i = Some p -> observation_id p = s ->
  d !! "observation_id" = Some (PyStr s) ->
  d !! "true_class" = Some (PyInt z) -> int32 z ->
  exists r db' rows,
    update (PyDict d) db = Ok (RespRecord r, db') /\
    list_db_contents db' = RespList rows /\
    rows !! i = Some r /\
    d_true_class r = PyInt z /\
    length rows = length db.
Proof.
  intros Huniq Hi Hp Hid Htc H32.
  do 3 eexists. split; [|split; [reflexivity|]].
  - now apply (update_known d s db i p (PyInt z) z).
  - split; [|split; [reflexivity|]].
    + rewrite list_lookup_fmap, list_lookup_insert_eq
        by now apply lookup_lt_Some in Hi.
      reflexivity.
    + now rewrite length_map, length_insert.
Qed.

Lemma update_then_list_witness :
  exists r db' rows,
    @update strict_fields (PyDict sample_update) sample_table
      = Ok (RespRecord r, db') /\
    list_db_contents db' = RespList rows /\
    rows !! 1%nat = Some r /\
    d_true_class r = PyInt 1 /\
    length rows = length sample_table.
Proof.
  apply (@update_then_list strict_fields strict_fields_laws sample_update
           "a1" sample_table 1%nat (new_row "a1" 0.75%float "{...a1...}") 1);
    try reflexivity; try (unfold int32; lia).
  apply (bool_decide_unpack _). vm_compute. exact I.
Defined.

(** X19: a valid request whose string identifier is already stored, on any
    table, never changes the table, labelled rows included: it is scored
    and answered with the score and the already-exists error. *)
Theorem predict_stored_id `{Numpy} `{Classifier} `{F : Fields}
    `{!FieldsLaws F} (request : http_request) (db : list Prediction)
    (s : string) (pr : float) (label : bool) :
  validated (get_json request) = true ->
  py_getitem (get_json request) "observation_id" = Ok (PyStr s) ->
  on_data score (get_json request) = Ok (pr, label) ->
  s ∈ observation_id <$> db ->
  predict request db
  = Ok (RespScore label pr (Some (already_exists (PyStr s))), db).
Proof.
  intros Hval Hid Hscore Hin.
  destruct (predict_scores request db Hval) as (i & obs & Hi & Hobs & ->).
  rewrite Hid in Hi. injection Hi as <-.
  rewrite (on_data_at _ _ _ Hobs) in Hscore. rewrite Hscore; simpl.
  rewrite (insert_duplicate _ s _ _ _ (text_of_str s)); [reflexivity|].
  destruct (existsb (has_id s) db) eqn:Hex; [reflexivity|].
  now apply existsb_has_id in Hex.
Qed.

Lemma predict_stored_id_witness :
  @predict int64_numpy demo_classifier strict_fields sample_request
    [set_true_class (new_row "a1" 0.5%float "{...old...}") (Some 1)]
  = Ok (RespScore true 0.75%float (Some (already_exists (PyStr "a1"))),
        [set_true_class (new_row "a1" 0.5%float "{...old...}") (Some 1)]).
Proof.
  apply (@predict_stored_id int64_numpy demo_classifier strict_fields
           strict_fields_laws);
    try (vm_compute; reflexivity).
  apply (bool_decide_unpack _). vm_compute. exact I.
Defined.

(** X20: scoring comes before the insert: when the classifier raises on a
    validated request, [predict] raises the same exception, whether or not
    the identifier is stored. *)
Theorem scoring_exception_propagates `{Numpy} `{Classifier} `{Fields}
    (request : http_request) (db : list Prediction) (e : pyexc) :
  validated (get_json request) = true ->
  on_data score (get_json request) = Raise e ->
  predict request db = Raise e.
Proof.
  intros Hval Hscore.
  destruct (predict_scores request db Hval) as (i & obs & Hi & Hobs & ->).
  rewrite (on_data_at _ _ _ Hobs) in Hscore. now rewrite Hscore.
Qed.

Lemma scoring_exception_propagates_witness :
  @predict int64_numpy
    {| frame := pyval; make_frame := fun _ => Raise OtherError;
       predict_proba := fun _ => Ok 0.75%float;
       pipeline_predict := fun _ => Ok true |}
    strict_fields sample_request sample_table
  = Raise OtherError.
Proof.
  apply (@scoring_exception_propagates int64_numpy _ strict_fields);
    vm_compute; reflexivity.
Defined.
